(** * generateMockForecast: a shallow embedding of [frontend/src/lib/mockData.ts]

    The forecasting entry point of the dashboard is the TypeScript function
    [generateMockForecast].  This file embeds it, together with the module
    constant [mockOperationalState] it reads, and proves what the function
    does and does not guarantee.

    Conventions of the embedding.

    - A JavaScript [number] that carries a measurement is a real number
      ([R]): the formulas are read with exact arithmetic, so rounding of
      IEEE doubles, NaN and the infinities are outside the model.  Loop
      counters, hour indices and epoch milliseconds are integers ([Z]); so
      is the horizon, which the dashboard passes as a whole number.
    - [Math.random()] is the engine's hidden generator.  It is modelled by
      the sequence of values it is going to return ([random : nat -> R]) and
      a cursor that every draw advances; the cursor is threaded through the
      code by the small state monad [Rand].
    - [new Date()] reads the wall clock.  The two readings the function
      makes are fields of the ambient record; an ISO timestamp string is
      represented by the epoch time it prints.
    - A plain object used as a dictionary is an association list kept in
      insertion order, assignment to an existing key replacing the value in
      place.  This is what JavaScript does for keys that are neither
      integer-like nor ["__proto__"], as the ids of the built-in queues.
    - Division is that of the reals, so a quotient stands for the code's
      value only when the divisor is not zero; statements that depend on a
      quotient assume so.

    Besides [generateMockForecast] the file embeds [generateHistoricalData]
    and the computations of the dashboard that consume a forecast: the
    status and colour rules of the queue card, the status indicator and the
    risk gauge, the rows of the forecast chart, and what the page derives
    from the stored simulation.  Markup and styling are not modelled. *)

From Stdlib Require Import Reals Lra Lia ZArith List String Bool.
From Stdlib Require Import Ascii.
Import ListNotations.

Local Open Scope R_scope.

(** ** JavaScript primitives used by the source *)

Module JS.

(** [Math.round]: the nearest integer, halves going up. *)
Definition Math_round (x : R) : R := IZR (Int_part (x + / 2)).

Definition Math_min (a b : R) : R := Rmin a b.
Definition Math_max (a b : R) : R := Rmax a b.
Definition Math_sin (x : R) : R := sin x.
Definition Math_PI : R := PI.

(** The two observations the source makes of a [Date]. *)
Record Date := mkDate { getTime : Z; getHours : Z }.

(** [new Date(ms).toISOString()], represented by the instant it denotes. *)
Definition toISOString (ms : Z) : Z := ms.

(** Objects with string keys. *)
Definition Obj (V : Type) := list (string * V).

Fixpoint set {V} (k : string) (v : V) (o : Obj V) : Obj V :=
  match o with
  | [] => [(k, v)]
  | (k', v') :: o' =>
      if String.eqb k k' then (k, v) :: o' else (k', v') :: set k v o'
  end.

Fixpoint get {V} (k : string) (o : Obj V) : option V :=
  match o with
  | [] => None
  | (k', v') :: o' => if String.eqb k k' then Some v' else get k o'
  end.

Definition values {V} (o : Obj V) : list V := map snd o.

(** [xs.reduce(f, init)] *)
Definition reduce {A B} (f : B -> A -> B) (init : B) (xs : list A) : B :=
  fold_left f xs init.

End JS.

(** ** The generator monad *)

Definition Rand (A : Type) : Type := nat -> A * nat.

Definition ret {A} (a : A) : Rand A := fun c => (a, c).

Definition bind {A B} (m : Rand A) (f : A -> Rand B) : Rand B :=
  fun c => let (a, c') := m c in f a c'.

Notation "x <- m ;; k" := (bind m (fun x => k))
  (at level 61, m at next level, right associativity).

(** One call of [Math.random()]. *)
Definition Math_random (random : nat -> R) : Rand R :=
  fun c => (random c, S c).

(** ** Data model ([@/types/operations], read off the object literals) *)

Module Queue.
Record t := mk {
  id : string;
  name : string;
  workInProgress : R;
  capacity : R;
  avgProcessTime : R;
  employees : R;
  complexity : R
}.
End Queue.

Record OperationalState := mkState {
  workQueues : list Queue.t;
  incomingRate : R;
  timestamp : Z;
  slaThreshold : R
}.

Module Prediction.
Record t := mk {
  workInProgress : R;
  utilization : R;
  bottleneckProbability : R;
  slaBreachProbability : R;
  avgWaitTime : R;
  processed : R
}.
End Prediction.

Module Hourly.
Record t := mk {
  hour : Z;
  timestamp : Z;
  predictions : JS.Obj Prediction.t;
  totalBreachRisk : R
}.
End Hourly.

Inductive Severity := high | medium | low.

Record ResourceChange := mkChange { rc_queueId : string; employeeChange : Z }.

Module Suggestion.
Record t := mk {
  severity : Severity;
  queue : string;
  queueId : string;
  action : string;
  impact : string;
  resourceChange : option ResourceChange;
  reasoning : string
}.
End Suggestion.

Module Metadata.
Record t := mk {
  forecastHours : Z;
  averageBreachRisk : R;
  peakRiskHour : Z;
  peakRiskValue : R;
  resourceChangesApplied : Z;
  suggestionsGenerated : Z;
  simulationTimestamp : Z
}.
End Metadata.

Record SimulationResponse := mkResponse {
  forecast : list Hourly.t;
  suggestions : list Suggestion.t;
  metadata : Metadata.t
}.

(** What a call reads from outside the program: the values the generator
    will return, and the clock at [const now = new Date()] and at the
    [new Date()] of [simulationTimestamp]. *)
Record Ambient := mkAmbient {
  random : nat -> R;
  now : JS.Date;
  stamp : JS.Date
}.

(** ** The module constant *)

Definition mockOperationalState (loaded : Z) : OperationalState :=
  {| workQueues :=
       [ Queue.mk "intake" "Case Intake" 45 50 15 5 1.0;
         Queue.mk "review" "Manual Review" 78 60 45 8 2.5;
         Queue.mk "approval" "Final Approval" 23 40 30 4 1.8;
         Queue.mk "completion" "Case Completion" 12 50 10 3 1.0 ];
     incomingRate := 8.5;
     timestamp := JS.toISOString loaded;
     slaThreshold := 120 |}.

(** ** generateMockForecast *)

Section Generate.

Variable amb : Ambient.

(** Line 52. *)
Definition hourFactor (i : Z) : R :=
  JS.Math_sin (IZR (i + JS.getHours (now amb)) * JS.Math_PI / 12) * 0.3 + 1.

(** The callback of [workQueues.forEach], lines 56-68, without the
    assignment into [predictions]. *)
Definition predictQueue (hf : R) (queue : Queue.t) : Rand Prediction.t :=
  let baseUtil := Queue.workInProgress queue / Queue.capacity queue * 100 in
  r1 <- Math_random (random amb) ;;
  let utilization := JS.Math_min 100 (baseUtil * hf + r1 * 10) in
  r2 <- Math_random (random amb) ;;
  let breachProb :=
    JS.Math_max 0 (JS.Math_min 100 ((utilization - 60) * 2 + r2 * 15)) in
  r3 <- Math_random (random amb) ;;
  let bottleneckProb :=
    JS.Math_max 0 (JS.Math_min 100 ((utilization - 50) * 1.5 + r3 * 10)) in
  r4 <- Math_random (random amb) ;;
  ret {| Prediction.workInProgress :=
           JS.Math_round (Queue.workInProgress queue * hf + r4 * 10);
         Prediction.utilization := utilization;
         Prediction.bottleneckProbability := bottleneckProb;
         Prediction.slaBreachProbability := breachProb;
         Prediction.avgWaitTime :=
           Queue.avgProcessTime queue * (utilization / 50);
         Prediction.processed :=
           JS.Math_round
             (Queue.employees queue * (60 / Queue.avgProcessTime queue)
              * 0.85) |}.

(** [workQueues.forEach(...)], filling [predictions] queue by queue. *)
Fixpoint forEachQueue (hf : R) (queues : list Queue.t)
    (predictions : JS.Obj Prediction.t) : Rand (JS.Obj Prediction.t) :=
  match queues with
  | [] => ret predictions
  | queue :: rest =>
      p <- predictQueue hf queue ;;
      forEachQueue hf rest (JS.set (Queue.id queue) p predictions)
  end.

(** Line 75. *)
Definition sumBreach (predictions : JS.Obj Prediction.t) : R :=
  JS.reduce (fun sum p => sum + Prediction.slaBreachProbability p) 0
            (JS.values predictions).

(** One turn of the [for] loop, lines 52-76: the entry pushed for index
    [i]. *)
Definition hourEntry (queues : list Queue.t) (i : Z) : Rand Hourly.t :=
  let hf := hourFactor i in
  predictions <- forEachQueue hf queues [] ;;
  ret {| Hourly.hour := i + 1;
         Hourly.timestamp :=
           JS.toISOString (JS.getTime (now amb) + (i + 1) * 3600000);
         Hourly.predictions := predictions;
         Hourly.totalBreachRisk := sumBreach predictions / 4 |}.

(** [for (let i = 0; i < hours; i++)]: [todo] counts the turns still to
    run, which is [hours - i] when that is positive and none otherwise. *)
Fixpoint hourLoop (queues : list Queue.t) (todo : nat) (i : Z)
    (forecast : list Hourly.t) : Rand (list Hourly.t) :=
  match todo with
  | O => ret forecast
  | S todo' =>
      entry <- hourEntry queues i ;;
      hourLoop queues todo' (i + 1) (forecast ++ [entry])
  end.

(** Lines 81-109. *)
Definition mockSuggestions : list Suggestion.t :=
  [ Suggestion.mk high "Manual Review" "review" "Add 2 employee(s)"
      "Reduce breach risk by ~42%"
      (Some (mkChange "review" 2))
      "Current workload (78 cases) exceeds safe capacity with high breach probability";
    Suggestion.mk medium "Final Approval" "approval"
      "Monitor closely and prepare to add resources"
      "Prevent bottleneck formation"
      None
      "Early indicators of bottleneck formation detected";
    Suggestion.mk low "Case Completion" "completion"
      "Reallocate 1-2 employee(s)"
      "Free resources without risk increase"
      (Some (mkChange "completion" (-1)))
      "Low utilization (24%) indicates spare capacity" ].

(** The body of [generateMockForecast], with the queue list it reads from
    [mockOperationalState.workQueues] as an argument. *)
Definition generateMockForecast_on (queues : list Queue.t) (hours : Z)
    : Rand SimulationResponse :=
  forecast <- hourLoop queues (Z.to_nat hours) 0 [] ;;
  ret {| forecast := forecast;
         suggestions := mockSuggestions;
         metadata :=
           {| Metadata.forecastHours := hours;
              Metadata.averageBreachRisk := 32.5;
              Metadata.peakRiskHour := 4;
              Metadata.peakRiskValue := 58.2;
              Metadata.resourceChangesApplied := 0;
              Metadata.suggestionsGenerated := 3;
              Metadata.simulationTimestamp :=
                JS.toISOString (JS.getTime (stamp amb)) |} |}.

(** [generateMockForecast(hours)]. *)
Definition generateMockForecast (loaded : Z) (hours : Z)
    : Rand SimulationResponse :=
  generateMockForecast_on (workQueues (mockOperationalState loaded)) hours.

End Generate.

(** ** Calling the function

    The body has no [throw] and calls nothing that throws on the values the
    model covers, so a call has one outcome: it returns.  The error kinds
    below are the ones the dashboard's engine contract names; they are
    declared so that the absence of each can be stated. *)

Inductive SimulationError := InvalidQueueState | EmptyQueueSet | InvalidHorizon.

Inductive Outcome (A : Type) :=
| Returns (a : A)
| Throws (e : SimulationError).
Arguments Returns {A} a.
Arguments Throws {A} e.

Definition call_generateMockForecast_on (amb : Ambient) (queues : list Queue.t)
    (hours : Z) (c : nat) : Outcome SimulationResponse :=
  Returns (fst (generateMockForecast_on amb queues hours c)).

(** ** Specification-side vocabulary *)

(** Well-formed generator output: [Math.random()] lies in [[0, 1)]. *)
Definition random_ok (amb : Ambient) : Prop :=
  forall k, 0 <= random amb k < 1.

(** A queue as the data model wants it, as far as the formulas care. *)
Definition queue_ok (q : Queue.t) : Prop :=
  0 <= Queue.workInProgress q /\ 0 < Queue.capacity q.

(** The demand-intensity factor in the words of the design document, for
    the 1-indexed hour [h]. *)
Definition intensityFactor_spec (currentHourOfDay h : Z) : R :=
  1 + 0.3 * sin (PI * IZR (h + currentHourOfDay) / 12).

(** The arithmetic mean of the breach probabilities of one hour. *)
Definition meanBreach (predictions : JS.Obj Prediction.t) : R :=
  sumBreach predictions / INR (List.length predictions).

(** Peak-risk consistency of a response: the reported peak is the value of
    some forecast hour, no hour has more, and no earlier hour has as much. *)
Definition peak_consistent (r : SimulationResponse) : Prop :=
  exists e,
    In e (forecast r) /\
    Hourly.hour e = Metadata.peakRiskHour (metadata r) /\
    Hourly.totalBreachRisk e = Metadata.peakRiskValue (metadata r) /\
    (forall e', In e' (forecast r) ->
       Hourly.totalBreachRisk e' <= Hourly.totalBreachRisk e) /\
    (forall e', In e' (forecast r) ->
       Hourly.totalBreachRisk e' = Hourly.totalBreachRisk e ->
       (Hourly.hour e <= Hourly.hour e')%Z).

(** The entry the loop pushes at its [k]-th turn, when the call started
    with the generator at cursor [c]. *)
Definition entryAt (amb : Ambient) (queues : list Queue.t) (c k : nat)
    : Hourly.t :=
  fst (hourEntry amb queues (Z.of_nat k) (c + 4 * List.length queues * k)%nat).

(** The prediction computed for [queue] when its four draws start at [c]. *)
Definition predictionAt (amb : Ambient) (hf : R) (queue : Queue.t) (c : nat)
    : Prediction.t :=
  fst (predictQueue amb hf queue c).

(** The predictions object after the [forEach]: key [id] holds the
    prediction of the last queue carrying that id, or what it held
    before. *)
Fixpoint assigned (amb : Ambient) (hf : R) (qs : list Queue.t) (c : nat)
    (id : string) (cur : option Prediction.t) : option Prediction.t :=
  match qs with
  | [] => cur
  | q :: rest =>
      assigned amb hf rest (c + 4) id
        (if String.eqb id (Queue.id q)
         then Some (predictionAt amb hf q c) else cur)
  end.

(** Every reported percentage lies between 0 and 100. *)
Definition in_range (p : Prediction.t) : Prop :=
  0 <= Prediction.utilization p <= 100 /\
  0 <= Prediction.slaBreachProbability p <= 100 /\
  0 <= Prediction.bottleneckProbability p <= 100.

(** ** Raising the load of one queue *)

Definition withWorkInProgress (w : R) (q : Queue.t) : Queue.t :=
  Queue.mk (Queue.id q) (Queue.name q) w (Queue.capacity q)
           (Queue.avgProcessTime q) (Queue.employees q) (Queue.complexity q).

(** The queue list with [delta] more work in progress in queue [j]. *)
Fixpoint raiseAt (j : nat) (delta : R) (qs : list Queue.t) : list Queue.t :=
  match qs, j with
  | [], _ => []
  | q :: rest, O =>
      withWorkInProgress (Queue.workInProgress q + delta) q :: rest
  | q :: rest, S j' => q :: raiseAt j' delta rest
  end.

(** Same queue, at least as loaded relative to its capacity. *)
Definition no_less_loaded (q q' : Queue.t) : Prop :=
  Queue.id q = Queue.id q' /\
  Queue.workInProgress q / Queue.capacity q * 100 <=
  Queue.workInProgress q' / Queue.capacity q' * 100.

Definition breach_le (o o' : option Prediction.t) : Prop :=
  match o, o' with
  | Some p, Some p' =>
      Prediction.slaBreachProbability p <= Prediction.slaBreachProbability p'
  | None, None => True
  | _, _ => False
  end.

(** The generators of two surroundings yield the same values at the
    positions [from], ..., [to - 1]. *)
Definition same_draws (a1 a2 : Ambient) (from to : nat) : Prop :=
  forall k, (from <= k < to)%nat -> random a1 k = random a2 k.

(** ** Concrete surroundings used in examples *)

(** Midnight, a generator that keeps returning 0. *)
Definition quiet : Ambient :=
  {| random := fun _ => 0; now := JS.mkDate 0 0; stamp := JS.mkDate 0 0 |}.

(** Midnight, a generator returning 0 sixteen times and 1/2 afterwards. *)
Definition shifting : Ambient :=
  {| random := fun k => if (k <? 16)%nat then 0 else / 2;
     now := JS.mkDate 0 0; stamp := JS.mkDate 0 0 |}.

Definition mockQueues : list Queue.t := workQueues (mockOperationalState 0).

(** Evaluation of the clamps on concrete numbers. *)
Ltac clamp_eval :=
  unfold Rmin, Rmax; repeat (destruct (Rle_dec _ _); try lra).

(** ** generateHistoricalData (mockData.ts, lines 122-142) *)

Module Historical.
Record t := mk {
  timestamp : Z;
  volume : R;
  breaches : R;
  avgProcessTime : R;
  activeEmployees : R
}.
End Historical.

(** [new Date(ms)]: the local hour of day of an instant depends on the time
    zone, given as the map [zone] from epoch milliseconds to hours. *)
Definition newDate (zone : Z -> Z) (ms : Z) : JS.Date := JS.mkDate ms (zone ms).

(** The object pushed for loop index [i], lines 127-138. *)
Definition historicalPoint (amb : Ambient) (zone : Z -> Z) (i : Z)
    : Rand Historical.t :=
  let timestamp := newDate zone (JS.getTime (now amb) - i * 3600000) in
  let hourOfDay := JS.getHours timestamp in
  let baseVolume := 300 in
  let seasonal :=
    100 * JS.Math_sin (IZR (hourOfDay - 6) * JS.Math_PI / 12) in
  r1 <- Math_random (random amb) ;;
  r2 <- Math_random (random amb) ;;
  r3 <- Math_random (random amb) ;;
  ret {| Historical.timestamp := JS.toISOString (JS.getTime timestamp);
         Historical.volume :=
           JS.Math_round (baseVolume + seasonal + (r1 - 0.5) * 50);
         Historical.breaches := JS.Math_max 0 (JS.Math_round (r2 * 15));
         Historical.avgProcessTime := JS.Math_round (35 + (r3 - 0.5) * 20);
         Historical.activeEmployees :=
           JS.Math_round
             (15 + 5 * JS.Math_sin (IZR (hourOfDay - 9) * JS.Math_PI / 8)) |}.

(** [for (let i = hours; i >= 0; i--)]: [todo] counts the turns still to
    run, [i + 1] of them when [i >= 0]. *)
Fixpoint historyLoop (amb : Ambient) (zone : Z -> Z) (todo : nat) (i : Z)
    (data : list Historical.t) : Rand (list Historical.t) :=
  match todo with
  | O => ret data
  | S todo' =>
      point <- historicalPoint amb zone i ;;
      historyLoop amb zone todo' (i - 1) (data ++ [point])
  end.

Definition generateHistoricalData (amb : Ambient) (zone : Z -> Z) (hours : Z)
    : Rand (list Historical.t) :=
  historyLoop amb zone (Z.to_nat (hours + 1)) hours [].

(** The point pushed at the [k]-th turn of a call started at cursor [c]. *)
Definition pointAt (amb : Ambient) (zone : Z -> Z) (hours : Z) (c k : nat)
    : Historical.t :=
  fst (historicalPoint amb zone (hours - Z.of_nat k) (c + 3 * k)%nat).

(** ** The dashboard components *)

(** Comparisons of numbers. *)
Definition num_ge (a b : R) : bool := if Rle_dec b a then true else false.
Definition num_gt (a b : R) : bool := if Rlt_dec b a then true else false.
Definition num_lt (a b : R) : bool := if Rlt_dec a b then true else false.

Inductive Status := healthy | warning | critical.

Definition rank (s : Status) : nat :=
  match s with healthy => 0 | warning => 1 | critical => 2 end.

(** [array[index]] *)
Definition at_index {A} (xs : list A) (index : Z) : option A :=
  if (index <? 0)%Z then None else nth_error xs (Z.to_nat index).

(** *** QueueCard *)

Module QueueCard.

(** [prediction?.utilization ?? (queue.workInProgress / queue.capacity) * 100] *)
Definition utilization (queue : Queue.t) (prediction : option Prediction.t)
    : R :=
  match prediction with
  | Some p => Prediction.utilization p
  | None => Queue.workInProgress queue / Queue.capacity queue * 100
  end.

(** [prediction?.slaBreachProbability ?? 0] *)
Definition breachRisk (prediction : option Prediction.t) : R :=
  match prediction with
  | Some p => Prediction.slaBreachProbability p
  | None => 0
  end.

Definition getStatus (queue : Queue.t) (prediction : option Prediction.t)
    : Status :=
  let utilization := utilization queue prediction in
  let breachRisk := breachRisk prediction in
  if num_ge breachRisk 70 || num_ge utilization 90 then critical
  else if num_ge breachRisk 40 || num_ge utilization 70 then warning
  else healthy.

(** The colour classes given to the SLA-risk figure: each of the three
    conditional classes that applies, in the order written. *)
Definition riskClasses (prediction : option Prediction.t) : list Status :=
  let breachRisk := breachRisk prediction in
  (if num_ge breachRisk 70 then [critical] else []) ++
  (if num_ge breachRisk 40 && num_lt breachRisk 70 then [warning] else []) ++
  (if num_lt breachRisk 40 then [healthy] else []).

End QueueCard.

(** *** StatusIndicator *)

Module StatusIndicator.

Record Thresholds := mkThresholds { t_warning : R; t_critical : R }.

Definition defaultThresholds : Thresholds :=
  {| t_warning := 60; t_critical := 80 |}.

(** The [status] constant; [None] is an omitted [thresholds] prop. *)
Definition status (value : R) (thresholds : option Thresholds) : Status :=
  let thresholds :=
    match thresholds with Some t => t | None => defaultThresholds end in
  if num_ge value (t_critical thresholds) then critical
  else if num_ge value (t_warning thresholds) then warning
  else healthy.

End StatusIndicator.

(** *** RiskGauge *)

Module RiskGauge.

Inductive Size := sm | md | lg.

Definition getColor (value : R) : string :=
  if num_ge value 70 then "text-status-critical"
  else if num_ge value 40 then "text-status-warning"
  else "text-status-healthy".

Definition getGradient (value : R) : string :=
  if num_ge value 70 then "from-status-critical to-red-400"
  else if num_ge value 40 then "from-status-warning to-amber-400"
  else "from-status-healthy to-emerald-400".

Definition strokeWidth (size : Size) : R :=
  match size with lg => 8 | md => 6 | sm => 4 end.

Definition radius (size : Size) : R :=
  match size with lg => 60 | md => 48 | sm => 36 end.

Definition circumference (size : Size) : R := 2 * JS.Math_PI * radius size.

Definition strokeDashoffset (value : R) (size : Size) : R :=
  circumference size - (value / 100) * circumference size * 0.75.

(** The length of the dash pattern ([strokeDasharray]) of both arcs. *)
Definition strokeDasharray (size : Size) : R := circumference size * 0.75.

End RiskGauge.

(** *** ForecastChart *)

Inductive ChartValue := Str (s : string) | Num (x : R).

Module ForecastChart.

Section Rows.

(** The conversion of [f.hour] in the template string, and
    [format(new Date(f.timestamp), 'HH:mm')] of date-fns. *)
Variable showNumber : Z -> string.
Variable formatHHmm : Z -> string.

(** The callback of [Object.entries(f.predictions).forEach]. *)
Definition addQueue (base : JS.Obj ChartValue) (entry : string * Prediction.t)
    : JS.Obj ChartValue :=
  let (queueId, pred) := entry in
  JS.set (queueId ++ "_risk") (Num (Prediction.slaBreachProbability pred))
    (JS.set (queueId ++ "_util") (Num (Prediction.utilization pred)) base).

(** The callback of [forecast.map]. *)
Definition row (f : Hourly.t) : JS.Obj ChartValue :=
  let base :=
    [ ("hour"%string, Str ("+" ++ showNumber (Hourly.hour f) ++ "h"));
      ("time"%string, Str (formatHHmm (Hourly.timestamp f)));
      ("totalRisk"%string, Num (Hourly.totalBreachRisk f)) ] in
  fold_left addQueue (Hourly.predictions f) base.

Definition data (forecast : list Hourly.t) : list (JS.Obj ChartValue) :=
  map row forecast.

End Rows.

(** [forecast[0] ? Object.keys(forecast[0].predictions) : []] *)
Definition queueIds (forecast : list Hourly.t) : list string :=
  match at_index forecast 0 with
  | Some f => map fst (Hourly.predictions f)
  | None => []
  end.

End ForecastChart.

(** *** SuggestionCard *)

Module SuggestionCard.

(** Whether the Apply button is rendered:
    [suggestion.resourceChange && onApply]. *)
Definition showsApply (suggestion : Suggestion.t) (onApply : bool) : bool :=
  match Suggestion.resourceChange suggestion with
  | Some _ => onApply
  | None => false
  end.

End SuggestionCard.

(** *** The Index page *)

Module Index.

(** [simulation?.metadata.averageBreachRisk ?? 0] *)
Definition avgRisk (simulation : option SimulationResponse) : R :=
  match simulation with
  | Some r => Metadata.averageBreachRisk (metadata r)
  | None => 0
  end.

(** [simulation?.forecast[simulation.forecast.length - 1]?.predictions] *)
Definition latestPredictions (simulation : option SimulationResponse)
    : option (JS.Obj Prediction.t) :=
  match simulation with
  | Some r =>
      match at_index (forecast r)
                     (Z.of_nat (List.length (forecast r)) - 1) with
      | Some f => Some (Hourly.predictions f)
      | None => None
      end
  | None => None
  end.

(** [latestPredictions?.[queue.id]], the prediction handed to a card. *)
Definition cardPrediction (simulation : option SimulationResponse)
    (queue : Queue.t) : option Prediction.t :=
  match latestPredictions simulation with
  | Some predictions => JS.get (Queue.id queue) predictions
  | None => None
  end.

(** The status of the "SLA Threshold" metric card. *)
Definition slaCardStatus (simulation : option SimulationResponse) : Status :=
  if num_gt (avgRisk simulation) 50 then warning else healthy.

(** [simulation?.metadata.forecastHours || 8] *)
Definition rerunHours (simulation : option SimulationResponse) : Z :=
  match simulation with
  | Some r =>
      if (Metadata.forecastHours (metadata r) =? 0)%Z then 8%Z
      else Metadata.forecastHours (metadata r)
  | None => 8%Z
  end.

(** [handleRunSimulation(hours)]: the simulation stored by
    [setSimulation]. *)
Definition handleRunSimulation (amb : Ambient) (loaded : Z) (hours : Z)
    : Rand (option SimulationResponse) :=
  result <- generateMockForecast amb loaded hours ;;
  ret (Some result).

(** [handleApplySuggestion(suggestion)]: the simulation stored after the
    re-run. *)
Definition handleApplySuggestion (amb : Ambient) (loaded : Z)
    (simulation : option SimulationResponse) (suggestion : Suggestion.t)
    : Rand (option SimulationResponse) :=
  handleRunSimulation amb loaded (rerunHours simulation).

End Index.

(** ** Vocabulary of the further properties *)

(** A queue on which the object model and the division of the embedding
    are exact: its id is not ["__proto__"], the one key whose assignment on
    a plain object does not create an entry, and its capacity is not zero,
    so that the base utilization is an ordinary number. *)
Definition ordinary_queue (q : Queue.t) : Prop :=
  Queue.id q <> "__proto__"%string /\ Queue.capacity q <> 0.

(** The ranges of the figures of a historical data point. *)
Definition historical_in_range (p : Historical.t) : Prop :=
  175 <= Historical.volume p <= 425 /\
  0 <= Historical.breaches p <= 15 /\
  25 <= Historical.avgProcessTime p <= 45 /\
  10 <= Historical.activeEmployees p <= 20.

(** A number plotted by the chart lies within the axis domain. *)
Definition on_axis (v : ChartValue) : Prop :=
  match v with
  | Num x => 0 <= x <= 100
  | Str _ => True
  end.

(** Case analysis on every comparison in the goal. *)
Ltac by_comparisons :=
  unfold num_ge, num_gt, num_lt;
  repeat (destruct (Rle_dec _ _)); repeat (destruct (Rlt_dec _ _));
  cbn; try lra; try lia; try easy.

(** * Properties *)

(** ** How the code consumes the generator *)

Section Cursor.

Variable amb : Ambient.

Lemma predictQueue_run hf q c :
  predictQueue amb hf q c = (predictionAt amb hf q c, (c + 4)%nat).
Proof.
  unfold predictionAt, predictQueue, bind, ret, Math_random; simpl.
  f_equal. lia.
Qed.

Lemma forEachQueue_cursor hf qs : forall preds c,
  snd (forEachQueue amb hf qs preds c) = (c + 4 * List.length qs)%nat.
Proof.
  induction qs as [|q qs IH]; intros preds c; simpl.
  - unfold ret; simpl. lia.
  - unfold bind. rewrite predictQueue_run. rewrite IH. lia.
Qed.

Lemma forEachQueue_cons hf q qs preds c :
  forEachQueue amb hf (q :: qs) preds c =
  forEachQueue amb hf qs
    (JS.set (Queue.id q) (predictionAt amb hf q c) preds) (c + 4)%nat.
Proof. simpl. unfold bind. rewrite predictQueue_run. reflexivity. Qed.

Lemma hourEntry_cursor qs i c :
  snd (hourEntry amb qs i c) = (c + 4 * List.length qs)%nat.
Proof.
  unfold hourEntry, bind, ret.
  pose proof (forEachQueue_cursor (hourFactor amb i) qs [] c) as H.
  destruct (forEachQueue amb (hourFactor amb i) qs [] c) as [p c'].
  simpl in *. exact H.
Qed.

Lemma hourEntry_fields qs i c :
  let e := fst (hourEntry amb qs i c) in
  Hourly.hour e = (i + 1)%Z /\
  Hourly.timestamp e = (JS.getTime (now amb) + (i + 1) * 3600000)%Z /\
  Hourly.predictions e = fst (forEachQueue amb (hourFactor amb i) qs [] c) /\
  Hourly.totalBreachRisk e = sumBreach (Hourly.predictions e) / 4.
Proof.
  unfold hourEntry, bind, ret.
  destruct (forEachQueue amb (hourFactor amb i) qs [] c) as [p c'].
  simpl. repeat split.
Qed.

(** The loop, unrolled: turn [k] builds its entry from hour index
    [i + k] and from the draws that follow those of the earlier turns. *)
Lemma hourLoop_run qs : forall todo i acc c,
  hourLoop amb qs todo i acc c =
  (acc ++ map (fun k => fst (hourEntry amb qs (i + Z.of_nat k)
                               (c + 4 * List.length qs * k)%nat))
              (seq 0 todo),
   (c + 4 * List.length qs * todo)%nat).
Proof.
  induction todo as [|n IH]; intros i acc c.
  - simpl. unfold ret. rewrite app_nil_r. f_equal. lia.
  - cbn [hourLoop]. unfold bind.
    pose proof (hourEntry_cursor qs i c) as Hc.
    destruct (hourEntry amb qs i c) as [e c'] eqn:He. simpl in Hc. subst c'.
    rewrite IH. f_equal.
    + rewrite <- app_assoc. f_equal. cbn [seq map app].
      f_equal.
      * replace (i + Z.of_nat 0)%Z with i by lia.
        replace (c + 4 * List.length qs * 0)%nat with c by lia.
        rewrite He. reflexivity.
      * rewrite <- seq_shift, map_map. apply map_ext. intros k.
        f_equal. f_equal; [lia|]. lia.
    + lia.
Qed.

Lemma generate_forecast qs hours c :
  forecast (fst (generateMockForecast_on amb qs hours c)) =
  map (entryAt amb qs c) (seq 0 (Z.to_nat hours)).
Proof.
  unfold generateMockForecast_on, bind, ret. rewrite hourLoop_run.
  simpl. apply map_ext. intros k. unfold entryAt. reflexivity.
Qed.

Lemma generate_cursor qs hours c :
  snd (generateMockForecast_on amb qs hours c) =
  (c + 4 * List.length qs * Z.to_nat hours)%nat.
Proof.
  unfold generateMockForecast_on, bind, ret. rewrite hourLoop_run.
  reflexivity.
Qed.

Lemma generate_suggestions qs hours c :
  suggestions (fst (generateMockForecast_on amb qs hours c)) =
  mockSuggestions.
Proof.
  unfold generateMockForecast_on, bind, ret.
  destruct (hourLoop amb qs (Z.to_nat hours) 0 [] c). reflexivity.
Qed.

Lemma generate_metadata qs hours c :
  metadata (fst (generateMockForecast_on amb qs hours c)) =
  {| Metadata.forecastHours := hours;
     Metadata.averageBreachRisk := 32.5;
     Metadata.peakRiskHour := 4;
     Metadata.peakRiskValue := 58.2;
     Metadata.resourceChangesApplied := 0;
     Metadata.suggestionsGenerated := 3;
     Metadata.simulationTimestamp :=
       JS.toISOString (JS.getTime (stamp amb)) |}.
Proof.
  unfold generateMockForecast_on, bind, ret.
  destruct (hourLoop amb qs (Z.to_nat hours) 0 [] c). reflexivity.
Qed.

End Cursor.

(** ** Facts about objects *)

Section Objects.

Context {V : Type}.

Lemma get_set (id k : string) (v : V) (o : JS.Obj V) :
  JS.get id (JS.set k v o) =
  if String.eqb id k then Some v else JS.get id o.
Proof.
  induction o as [|[k' v'] o IH]; simpl.
  - reflexivity.
  - destruct (String.eqb_spec k k') as [->|Hkk']; simpl.
    + destruct (String.eqb id k'); reflexivity.
    + rewrite IH.
      destruct (String.eqb_spec id k') as [->|Hik']; [|reflexivity].
      destruct (String.eqb_spec k' k) as [->|_]; [congruence|reflexivity].
Qed.

Lemma set_values_Forall (P : V -> Prop) k v (o : JS.Obj V) :
  P v -> Forall P (JS.values o) -> Forall P (JS.values (JS.set k v o)).
Proof.
  unfold JS.values. intros Hv.
  induction o as [|[k' v'] o IH]; simpl; intros Ho.
  - constructor; [exact Hv | constructor].
  - inversion Ho as [|? ? Hv' Ho']; subst.
    destruct (String.eqb k k'); simpl; constructor; auto.
Qed.

Lemma in_values id (v : V) (o : JS.Obj V) :
  In (id, v) o -> In v (JS.values o).
Proof. intros H. unfold JS.values. apply (in_map snd) in H. exact H. Qed.

Lemma get_in_values id (v : V) (o : JS.Obj V) :
  JS.get id o = Some v -> In v (JS.values o).
Proof.
  induction o as [|[k' v'] o IH]; simpl; [discriminate|].
  destruct (String.eqb id k'); intros H.
  - left. congruence.
  - right. auto.
Qed.

End Objects.

(** ** What one queue's prediction is *)

Section PredictionFacts.

Variable amb : Ambient.

Lemma predictionAt_eq hf q c :
  predictionAt amb hf q c =
  let utilization :=
    Rmin 100 (Queue.workInProgress q / Queue.capacity q * 100 * hf
              + random amb c * 10) in
  {| Prediction.workInProgress :=
       JS.Math_round (Queue.workInProgress q * hf
                      + random amb (S (S (S c))) * 10);
     Prediction.utilization := utilization;
     Prediction.bottleneckProbability :=
       Rmax 0 (Rmin 100 ((utilization - 50) * 1.5
                         + random amb (S (S c)) * 10));
     Prediction.slaBreachProbability :=
       Rmax 0 (Rmin 100 ((utilization - 60) * 2 + random amb (S c) * 15));
     Prediction.avgWaitTime := Queue.avgProcessTime q * (utilization / 50);
     Prediction.processed :=
       JS.Math_round (Queue.employees q * (60 / Queue.avgProcessTime q)
                      * 0.85) |}.
Proof. reflexivity. Qed.

Lemma hourFactor_bounds i : 0.7 <= hourFactor amb i <= 1.3.
Proof.
  unfold hourFactor, JS.Math_sin.
  pose proof (SIN_bound (IZR (i + JS.getHours (now amb)) * JS.Math_PI / 12)).
  lra.
Qed.

Lemma forEachQueue_get hf qs : forall preds c id,
  JS.get id (fst (forEachQueue amb hf qs preds c)) =
  assigned amb hf qs c id (JS.get id preds).
Proof.
  induction qs as [|q qs IH]; intros preds c id.
  - reflexivity.
  - rewrite forEachQueue_cons, IH, get_set. reflexivity.
Qed.

Lemma assigned_absent hf qs : forall c id cur,
  ~ In id (map Queue.id qs) -> assigned amb hf qs c id cur = cur.
Proof.
  induction qs as [|q qs IH]; intros c id cur Hn; simpl in *.
  - reflexivity.
  - rewrite IH by tauto.
    destruct (String.eqb_spec id (Queue.id q)) as [->|_]; [tauto|reflexivity].
Qed.

Lemma assigned_nth hf qs : forall c j q cur,
  NoDup (map Queue.id qs) ->
  nth_error qs j = Some q ->
  assigned amb hf qs c (Queue.id q) cur =
  Some (predictionAt amb hf q (c + 4 * j)).
Proof.
  induction qs as [|q0 qs IH]; intros c j q cur Hnd Hj.
  - destruct j; discriminate.
  - simpl in Hnd. inversion Hnd as [|? ? Hnotin Hnd']; subst.
    destruct j as [|j]; simpl in Hj.
    + injection Hj as ->. simpl. rewrite String.eqb_refl.
      rewrite assigned_absent by exact Hnotin.
      do 2 f_equal. lia.
    + simpl. rewrite (IH (c + 4)%nat j q) by assumption.
      do 2 f_equal. lia.
Qed.

Lemma forEachQueue_values_Forall (P : Prediction.t -> Prop) hf qs :
  (forall q c, In q qs -> P (predictionAt amb hf q c)) ->
  forall preds c,
    Forall P (JS.values preds) ->
    Forall P (JS.values (fst (forEachQueue amb hf qs preds c))).
Proof.
  induction qs as [|q qs IH]; intros HP preds c Hpreds.
  - exact Hpreds.
  - rewrite forEachQueue_cons. apply IH.
    + intros q' c' Hin. apply HP. right. exact Hin.
    + apply set_values_Forall; [|exact Hpreds]. apply HP. left. reflexivity.
Qed.

End PredictionFacts.

(** ** Entries of the returned forecast *)

Lemma forecast_length amb qs hours c :
  List.length (forecast (fst (generateMockForecast_on amb qs hours c))) =
  Z.to_nat hours.
Proof. rewrite generate_forecast, length_map, length_seq. reflexivity. Qed.

Lemma forecast_nth amb qs hours c k :
  (k < Z.to_nat hours)%nat ->
  nth_error (forecast (fst (generateMockForecast_on amb qs hours c))) k =
  Some (entryAt amb qs c k).
Proof.
  intros Hk. rewrite generate_forecast.
  rewrite nth_error_map, nth_error_seq.
  destruct (Nat.ltb_spec k (Z.to_nat hours)); [reflexivity | lia].
Qed.

Lemma forecast_nth_inv amb qs hours c k e :
  nth_error (forecast (fst (generateMockForecast_on amb qs hours c))) k =
  Some e ->
  (k < Z.to_nat hours)%nat /\ e = entryAt amb qs c k.
Proof.
  intros H.
  assert (Hk : (k < Z.to_nat hours)%nat).
  { rewrite <- (forecast_length amb qs hours c).
    apply nth_error_Some. congruence. }
  split; [exact Hk|]. rewrite forecast_nth in H by exact Hk. congruence.
Qed.

Lemma forecast_In amb qs hours c e :
  In e (forecast (fst (generateMockForecast_on amb qs hours c))) ->
  exists k, (k < Z.to_nat hours)%nat /\ e = entryAt amb qs c k.
Proof.
  intros H. apply In_nth_error in H. destruct H as [k Hk].
  exists k. eapply forecast_nth_inv. exact Hk.
Qed.

Lemma entryAt_fields amb qs c k :
  Hourly.hour (entryAt amb qs c k) = (Z.of_nat k + 1)%Z /\
  Hourly.timestamp (entryAt amb qs c k) =
    (JS.getTime (now amb) + (Z.of_nat k + 1) * 3600000)%Z /\
  Hourly.predictions (entryAt amb qs c k) =
    fst (forEachQueue amb (hourFactor amb (Z.of_nat k)) qs []
           (c + 4 * List.length qs * k)%nat) /\
  Hourly.totalBreachRisk (entryAt amb qs c k) =
    sumBreach (Hourly.predictions (entryAt amb qs c k)) / 4.
Proof. unfold entryAt. apply hourEntry_fields. Qed.

Lemma quiet_ok : random_ok quiet.
Proof. intros k. simpl. lra. Qed.

Lemma shifting_ok : random_ok shifting.
Proof. intros k. simpl. destruct (k <? 16)%nat; lra. Qed.

Lemma mockQueues_ok : Forall queue_ok mockQueues.
Proof. repeat constructor; simpl; lra. Qed.

Lemma hourFactor_midnight amb :
  JS.getHours (now amb) = 0%Z -> hourFactor amb 0 = 1.
Proof.
  intros H. unfold hourFactor, JS.Math_sin. rewrite H. simpl.
  replace (0 * JS.Math_PI / 12) with 0 by lra. rewrite sin_0. lra.
Qed.

(** ** Forecast structure *)

(** C9. For every horizon [hours >= 0] (in particular every horizon of the
    valid range 1..24) the returned forecast has exactly [hours] entries;
    the entry at position [k] has hour [k + 1], so the hours are 1..hours in
    increasing order; its timestamp is the start time plus
    [hour * 3600000] milliseconds; hours and timestamps are strictly
    increasing along the sequence. *)
Theorem forecast_structure amb qs hours c :
  (0 <= hours)%Z ->
  let f := forecast (fst (generateMockForecast_on amb qs hours c)) in
  Z.of_nat (List.length f) = hours /\
  map Hourly.hour f =
    map (fun k => (Z.of_nat k + 1)%Z) (seq 0 (Z.to_nat hours)) /\
  Forall (fun e => Hourly.timestamp e =
                   (JS.getTime (now amb) + Hourly.hour e * 3600000)%Z) f /\
  (forall j k ej ek, (j < k)%nat ->
     nth_error f j = Some ej -> nth_error f k = Some ek ->
     (Hourly.hour ej < Hourly.hour ek)%Z /\
     (Hourly.timestamp ej < Hourly.timestamp ek)%Z).
Proof.
  intros Hh f. subst f. repeat split.
  - rewrite forecast_length. lia.
  - rewrite generate_forecast, map_map. apply map_ext. intros k.
    apply entryAt_fields.
  - apply Forall_forall. intros e He.
    apply forecast_In in He. destruct He as [k [_ ->]].
    destruct (entryAt_fields amb qs c k) as [-> [-> _]]. reflexivity.
  - apply forecast_nth_inv in H0, H1.
    destruct H0 as [_ ->], H1 as [_ ->].
    destruct (entryAt_fields amb qs c j) as [-> _].
    destruct (entryAt_fields amb qs c k) as [-> _]. lia.
  - apply forecast_nth_inv in H0, H1.
    destruct H0 as [_ ->], H1 as [_ ->].
    destruct (entryAt_fields amb qs c j) as [_ [-> _]].
    destruct (entryAt_fields amb qs c k) as [_ [-> _]]. lia.
Qed.

Lemma forecast_structure_witness :
  let f := forecast (fst (generateMockForecast_on quiet mockQueues 8 0%nat)) in
  Z.of_nat (List.length f) = 8%Z /\
  map Hourly.hour f = map (fun k => (Z.of_nat k + 1)%Z) (seq 0 (Z.to_nat 8)) /\
  Forall (fun e => Hourly.timestamp e =
                   (JS.getTime (now quiet) + Hourly.hour e * 3600000)%Z) f /\
  (forall j k ej ek, (j < k)%nat ->
     nth_error f j = Some ej -> nth_error f k = Some ek ->
     (Hourly.hour ej < Hourly.hour ek)%Z /\
     (Hourly.timestamp ej < Hourly.timestamp ek)%Z).
Proof. apply (forecast_structure quiet mockQueues 8 0%nat). lia. Defined.

(** ** The constant part of the response *)

(** C3. Whatever the surroundings, the queues, the horizon and the state of
    the generator, the response carries the same three suggestions, in the
    order high/review/+2, medium/approval/no change, low/completion/-1, and
    the same risk metadata: average 32.5, peak hour 4, peak value 58.2,
    0 changes applied, 3 suggestions.  None of it depends on the forecast
    computed in the same call. *)
Theorem suggestions_and_metadata_constant amb qs hours c :
  let r := fst (generateMockForecast_on amb qs hours c) in
  map (fun s => (Suggestion.severity s, Suggestion.queueId s,
                 option_map employeeChange (Suggestion.resourceChange s)))
      (suggestions r) =
    [ (high, "review"%string, Some 2%Z);
      (medium, "approval"%string, None);
      (low, "completion"%string, Some (-1)%Z) ] /\
  Metadata.averageBreachRisk (metadata r) = 32.5 /\
  Metadata.peakRiskHour (metadata r) = 4%Z /\
  Metadata.peakRiskValue (metadata r) = 58.2 /\
  Metadata.resourceChangesApplied (metadata r) = 0%Z /\
  Metadata.suggestionsGenerated (metadata r) = 3%Z /\
  (forall amb' qs' hours' c',
     let r' := fst (generateMockForecast_on amb' qs' hours' c') in
     suggestions r' = suggestions r /\
     Metadata.averageBreachRisk (metadata r') =
       Metadata.averageBreachRisk (metadata r) /\
     Metadata.peakRiskHour (metadata r') = Metadata.peakRiskHour (metadata r) /\
     Metadata.peakRiskValue (metadata r') =
       Metadata.peakRiskValue (metadata r) /\
     Metadata.resourceChangesApplied (metadata r') =
       Metadata.resourceChangesApplied (metadata r) /\
     Metadata.suggestionsGenerated (metadata r') =
       Metadata.suggestionsGenerated (metadata r)).
Proof.
  cbv zeta. rewrite generate_suggestions, generate_metadata. simpl.
  repeat split; try reflexivity;
    try (rewrite generate_suggestions; reflexivity);
    rewrite generate_metadata; reflexivity.
Qed.

(** ** Horizon handling *)

(** C4, as stated, fails: with horizon 0 and with horizon 25 the call
    returns a response (an empty forecast, and one of 25 entries) instead of
    failing with [InvalidHorizon]. *)
Lemma horizon_not_validated :
  (exists r,
     call_generateMockForecast_on quiet mockQueues 0 0%nat = Returns r /\
     forecast r = []) /\
  (exists r,
     call_generateMockForecast_on quiet mockQueues 25 0%nat = Returns r /\
     List.length (forecast r) = 25%nat) /\
  call_generateMockForecast_on quiet mockQueues 0 0%nat
    <> Throws InvalidHorizon /\
  call_generateMockForecast_on quiet mockQueues 25 0%nat
    <> Throws InvalidHorizon.
Proof.
  unfold call_generateMockForecast_on. repeat split.
  - eexists. split; [reflexivity|]. rewrite generate_forecast. reflexivity.
  - eexists. split; [reflexivity|]. rewrite forecast_length. reflexivity.
  - discriminate.
  - discriminate.
Qed.

(** C4, amended. The function does not validate the horizon: for every
    horizon, inside or outside 1..24, the call returns a response and never
    fails with [InvalidHorizon]; the forecast has [hours] entries when
    [hours] is positive and none otherwise, and the horizon is copied
    unchanged into [metadata.forecastHours]. *)
Theorem horizon_always_accepted amb qs hours c :
  exists r,
    call_generateMockForecast_on amb qs hours c = Returns r /\
    Z.of_nat (List.length (forecast r)) = Z.max 0 hours /\
    Metadata.forecastHours (metadata r) = hours.
Proof.
  eexists. split; [reflexivity|]. split.
  - rewrite forecast_length. lia.
  - rewrite generate_metadata. reflexivity.
Qed.

(** ** Empty queue list *)

(** C5, as stated, fails: on an empty queue list the call returns a
    response whose single hour has no predictions and aggregate risk 0; it
    does not fail with [EmptyQueueSet]. *)
Lemma empty_queue_set_not_rejected :
  call_generateMockForecast_on quiet [] 1 0%nat <> Throws EmptyQueueSet /\
  exists r e,
    call_generateMockForecast_on quiet [] 1 0%nat = Returns r /\
    forecast r = [e] /\
    Hourly.predictions e = [] /\
    Hourly.totalBreachRisk e = 0.
Proof.
  unfold call_generateMockForecast_on. split; [discriminate|].
  eexists. eexists. split; [reflexivity|]. rewrite generate_forecast.
  split; [reflexivity|]. split; [reflexivity|].
  simpl. unfold sumBreach, JS.reduce. simpl. lra.
Qed.

(** C5, amended. The function has no check for an empty queue list and no
    division by the number of queues: the divisor of the aggregate risk is
    the constant 4.  On an empty list the call returns a complete response,
    one entry per requested hour, each with an empty predictions object and
    aggregate risk 0; on no list does it fail with [EmptyQueueSet]. *)
Theorem empty_queue_set_returns_zero_risk amb hours c :
  (forall qs, call_generateMockForecast_on amb qs hours c
              <> Throws EmptyQueueSet) /\
  exists r,
    call_generateMockForecast_on amb [] hours c = Returns r /\
    List.length (forecast r) = Z.to_nat hours /\
    Forall (fun e => Hourly.predictions e = [] /\
                     Hourly.totalBreachRisk e = 0) (forecast r).
Proof.
  split; [intros qs; discriminate|].
  eexists. split; [reflexivity|]. split; [apply forecast_length|].
  apply Forall_forall. intros e He.
  apply forecast_In in He. destruct He as [k [_ ->]].
  destruct (entryAt_fields amb [] c k) as [_ [_ [Hp Ht]]].
  assert (Hnil : Hourly.predictions (entryAt amb [] c k) = [])
    by (rewrite Hp; reflexivity).
  split; [exact Hnil|].
  rewrite Ht, Hnil. unfold sumBreach, JS.reduce. simpl. lra.
Qed.

(** ** Clamping *)

Lemma clamp_bounds x : 0 <= Rmax 0 (Rmin 100 x) <= 100.
Proof.
  split.
  - apply Rmax_l.
  - apply Rmax_lub; [lra | apply Rmin_l].
Qed.

Lemma baseUtil_nonneg q : queue_ok q ->
  0 <= Queue.workInProgress q / Queue.capacity q * 100.
Proof.
  intros [Hw Hc].
  assert (0 <= Queue.workInProgress q / Queue.capacity q).
  { unfold Rdiv. apply Rmult_le_pos; [exact Hw|].
    left. apply Rinv_0_lt_compat. exact Hc. }
  lra.
Qed.

Lemma predictionAt_in_range amb hf q c :
  random_ok amb -> queue_ok q -> 0 <= hf ->
  in_range (predictionAt amb hf q c).
Proof.
  intros Hr Hq Hhf. rewrite predictionAt_eq. cbv zeta. unfold in_range.
  simpl. split; [|split; apply clamp_bounds].
  split.
  - apply Rmin_glb; [lra|].
    pose proof (baseUtil_nonneg q Hq) as Hb.
    pose proof (Rmult_le_pos _ _ Hb Hhf).
    pose proof (Hr c). lra.
  - apply Rmin_l.
Qed.

(** C7. For all valid inputs (every queue with non-negative work in
    progress and positive capacity, every draw of the generator in
    [[0, 1)]) the call returns, and in every hour of the returned forecast
    every prediction has utilization, SLA-breach probability and bottleneck
    probability within [[0, 100]]. *)
Theorem clamping_invariant amb qs hours c :
  random_ok amb ->
  Forall queue_ok qs ->
  exists r,
    call_generateMockForecast_on amb qs hours c = Returns r /\
    Forall (fun e => Forall in_range (JS.values (Hourly.predictions e)))
           (forecast r).
Proof.
  intros Hr Hqs. eexists. split; [reflexivity|].
  apply Forall_forall. intros e He.
  apply forecast_In in He. destruct He as [k [_ ->]].
  destruct (entryAt_fields amb qs c k) as [_ [_ [-> _]]].
  apply forEachQueue_values_Forall; [|constructor].
  intros q c' Hin. apply predictionAt_in_range.
  - exact Hr.
  - rewrite Forall_forall in Hqs. apply Hqs. exact Hin.
  - pose proof (hourFactor_bounds amb (Z.of_nat k)). lra.
Qed.

Lemma clamping_invariant_witness :
  exists r,
    call_generateMockForecast_on quiet mockQueues 8 0%nat = Returns r /\
    Forall (fun e => Forall in_range (JS.values (Hourly.predictions e)))
           (forecast r).
Proof.
  apply (clamping_invariant quiet mockQueues 8 0%nat).
  - intros k. simpl. lra.
  - repeat constructor; simpl; lra.
Defined.

(** ** Load-risk monotonicity *)

Lemma no_less_loaded_refl q : no_less_loaded q q.
Proof. split; [reflexivity | lra]. Qed.

Lemma raiseAt_no_less_loaded delta : forall qs j,
  (forall q, nth_error qs j = Some q -> 0 < Queue.capacity q) ->
  0 <= delta ->
  Forall2 no_less_loaded qs (raiseAt j delta qs).
Proof.
  induction qs as [|q qs IH]; intros j Hcap Hd.
  - destruct j; constructor.
  - destruct j as [|j]; simpl.
    + constructor.
      * split; [reflexivity|]. simpl.
        assert (Hc : 0 < Queue.capacity q) by (apply Hcap; reflexivity).
        pose proof (Rinv_0_lt_compat _ Hc) as Hi.
        unfold Rdiv. nra.
      * clear. induction qs; constructor; auto using no_less_loaded_refl.
    + constructor; [apply no_less_loaded_refl|].
      apply IH; [|exact Hd]. intros q' Hq'. apply Hcap. exact Hq'.
Qed.

Lemma breach_monotone amb hf q q' c :
  0 <= hf -> no_less_loaded q q' ->
  Prediction.slaBreachProbability (predictionAt amb hf q c) <=
  Prediction.slaBreachProbability (predictionAt amb hf q' c).
Proof.
  intros Hhf [_ Hb]. rewrite !predictionAt_eq. cbv zeta. simpl.
  apply Rle_max_compat_l, Rle_min_compat_l.
  assert (Rmin 100 (Queue.workInProgress q / Queue.capacity q * 100 * hf
                    + random amb c * 10) <=
          Rmin 100 (Queue.workInProgress q' / Queue.capacity q' * 100 * hf
                    + random amb c * 10)).
  { apply Rle_min_compat_l. nra. }
  lra.
Qed.

Lemma assigned_monotone amb hf : forall qs qs',
  0 <= hf -> Forall2 no_less_loaded qs qs' ->
  forall c id cur cur',
    breach_le cur cur' ->
    breach_le (assigned amb hf qs c id cur) (assigned amb hf qs' c id cur').
Proof.
  intros qs qs' Hhf H2.
  induction H2 as [|q q' qs qs' Hq _ IH]; intros c id cur cur' Hcur.
  - exact Hcur.
  - simpl. apply IH. destruct Hq as [Hid Hb]. rewrite <- Hid.
    destruct (String.eqb id (Queue.id q)); [|exact Hcur].
    simpl. apply breach_monotone; [exact Hhf | split; assumption].
Qed.

Lemma raiseAt_length j delta : forall qs,
  List.length (raiseAt j delta qs) = List.length qs.
Proof.
  revert j. induction j as [|j IH]; intros [|q qs]; simpl; auto.
Qed.

(** C10. Take a queue list, add [delta >= 0] to the work in progress of
    queue [j] (whose capacity is positive) and keep everything else: the
    surroundings, the draws of the generator, the horizon.  Then at every
    hour [k] of the forecast, every prediction present before is still
    present, with an SLA-breach probability that has not decreased; this
    holds in particular for the prediction of queue [j] itself. *)
Theorem load_risk_monotone amb qs j delta hours c k e id p :
  (forall q, nth_error qs j = Some q -> 0 < Queue.capacity q) ->
  0 <= delta ->
  nth_error (forecast (fst (generateMockForecast_on amb qs hours c))) k
    = Some e ->
  JS.get id (Hourly.predictions e) = Some p ->
  exists e' p',
    nth_error
      (forecast (fst (generateMockForecast_on amb (raiseAt j delta qs)
                        hours c))) k = Some e' /\
    JS.get id (Hourly.predictions e') = Some p' /\
    Prediction.slaBreachProbability p <= Prediction.slaBreachProbability p'.
Proof.
  intros Hcap Hd He Hp.
  apply forecast_nth_inv in He. destruct He as [Hk ->].
  exists (entryAt amb (raiseAt j delta qs) c k).
  destruct (entryAt_fields amb qs c k) as [_ [_ [Hpreds _]]].
  destruct (entryAt_fields amb (raiseAt j delta qs) c k)
    as [_ [_ [Hpreds' _]]].
  rewrite Hpreds, forEachQueue_get in Hp.
  assert (Hhf : 0 <= hourFactor amb (Z.of_nat k))
    by (pose proof (hourFactor_bounds amb (Z.of_nat k)); lra).
  pose proof (assigned_monotone amb _ qs (raiseAt j delta qs) Hhf
                (raiseAt_no_less_loaded delta qs j Hcap Hd)
                (c + 4 * List.length qs * k)%nat id None None I) as Hmono.
  simpl JS.get in Hp. rewrite Hp in Hmono.
  destruct (assigned amb (hourFactor amb (Z.of_nat k)) (raiseAt j delta qs)
              (c + 4 * List.length qs * k) id None) as [p'|] eqn:Hp';
    [|contradiction].
  exists p'. split; [apply forecast_nth; exact Hk|]. split; [|exact Hmono].
  rewrite Hpreds', forEachQueue_get, raiseAt_length. exact Hp'.
Qed.

Lemma load_risk_monotone_witness :
  exists e' p',
    nth_error
      (forecast (fst (generateMockForecast_on quiet (raiseAt 0 10 mockQueues)
                        1 0%nat))) 0 = Some e' /\
    JS.get "intake" (Hourly.predictions e') = Some p' /\
    Prediction.slaBreachProbability
      (predictionAt quiet (hourFactor quiet 0)
         (Queue.mk "intake" "Case Intake" 45 50 15 5 1.0) 0)
    <= Prediction.slaBreachProbability p'.
Proof.
  apply (load_risk_monotone quiet mockQueues 0 10 1 0%nat 0
           (entryAt quiet mockQueues 0 0) "intake").
  - intros q Hq. injection Hq as <-. simpl. lra.
  - lra.
  - reflexivity.
  - reflexivity.
Defined.

(** ** Reading one prediction out of the forecast *)

Lemma entry_prediction amb qs c k j q :
  NoDup (map Queue.id qs) ->
  nth_error qs j = Some q ->
  JS.get (Queue.id q) (Hourly.predictions (entryAt amb qs c k)) =
  Some (predictionAt amb (hourFactor amb (Z.of_nat k)) q
          (c + 4 * List.length qs * k + 4 * j)).
Proof.
  intros Hnd Hj.
  destruct (entryAt_fields amb qs c k) as [_ [_ [-> _]]].
  rewrite forEachQueue_get. apply assigned_nth; assumption.
Qed.

Lemma mockQueues_ids : NoDup (map Queue.id mockQueues).
Proof.
  simpl. repeat constructor; simpl; intuition discriminate.
Qed.

Lemma mock_predictions amb hf c :
  fst (forEachQueue amb hf mockQueues [] c) =
  [ ("intake"%string,
     predictionAt amb hf (Queue.mk "intake" "Case Intake" 45 50 15 5 1.0) c);
    ("review"%string,
     predictionAt amb hf (Queue.mk "review" "Manual Review" 78 60 45 8 2.5)
       (c + 4));
    ("approval"%string,
     predictionAt amb hf (Queue.mk "approval" "Final Approval" 23 40 30 4 1.8)
       (c + 4 + 4));
    ("completion"%string,
     predictionAt amb hf
       (Queue.mk "completion" "Case Completion" 12 50 10 3 1.0)
       (c + 4 + 4 + 4)) ].
Proof.
  unfold mockQueues, mockOperationalState, workQueues.
  rewrite !forEachQueue_cons. reflexivity.
Qed.

Lemma quiet_breach_intake :
  Prediction.slaBreachProbability
    (predictionAt quiet 1 (Queue.mk "intake" "Case Intake" 45 50 15 5 1.0) 0)
  = 60.
Proof. rewrite predictionAt_eq. cbv zeta. simpl. clamp_eval. Qed.

(** ** Aggregate risk *)

(** C6, as stated, fails: with the single queue "intake" at midnight and
    zero noise, the hour's only breach probability is 60, so the mean over
    the queue set is 60, while [totalBreachRisk] is 15. *)
Lemma total_breach_risk_not_mean :
  exists e,
    forecast (fst (generateMockForecast_on quiet
                     [Queue.mk "intake" "Case Intake" 45 50 15 5 1.0]
                     1 0%nat)) = [e] /\
    List.length (Hourly.predictions e) = 1%nat /\
    meanBreach (Hourly.predictions e) = 60 /\
    Hourly.totalBreachRisk e = 15 /\
    Hourly.totalBreachRisk e <> meanBreach (Hourly.predictions e).
Proof.
  eexists. rewrite generate_forecast. split; [reflexivity|].
  set (q := Queue.mk "intake" "Case Intake" 45 50 15 5 1.0).
  destruct (entryAt_fields quiet [q] 0 0) as [_ [_ [Hp0 Ht]]].
  assert (Hp : Hourly.predictions (entryAt quiet [q] 0 0) =
               [("intake"%string, predictionAt quiet 1 q 0)]).
  { rewrite Hp0, forEachQueue_cons.
    change (hourFactor quiet (Z.of_nat 0)) with (hourFactor quiet 0).
    rewrite (hourFactor_midnight quiet eq_refl). reflexivity. }
  clear Hp0.
  assert (Hm : meanBreach (Hourly.predictions (entryAt quiet [q] 0 0)) = 60).
  { rewrite Hp. unfold meanBreach, sumBreach, JS.reduce, JS.values, q.
    cbn [map snd fold_left List.length INR].
    rewrite quiet_breach_intake. lra. }
  assert (Hr : Hourly.totalBreachRisk (entryAt quiet [q] 0 0) = 15).
  { rewrite Ht, Hp. unfold sumBreach, JS.reduce, JS.values, q.
    cbn [map snd fold_left].
    rewrite quiet_breach_intake. lra. }
  split; [rewrite Hp; reflexivity|].
  split; [exact Hm|]. split; [exact Hr|]. rewrite Hm, Hr. lra.
Qed.

(** C6, amended. In every hour of the forecast [totalBreachRisk] is the sum
    of the breach probabilities held in that hour's predictions object
    divided by the constant 4, whatever the number of queues.  For the four
    queues of [mockOperationalState], which is what [generateMockForecast]
    runs on, the object has four entries and the value is their arithmetic
    mean. *)
Theorem total_breach_risk_is_sum_over_four amb hours c :
  (forall qs,
     Forall (fun e => Hourly.totalBreachRisk e =
                      sumBreach (Hourly.predictions e) / 4)
            (forecast (fst (generateMockForecast_on amb qs hours c)))) /\
  (forall loaded,
     Forall (fun e => List.length (Hourly.predictions e) = 4%nat /\
                      Hourly.totalBreachRisk e =
                      meanBreach (Hourly.predictions e))
            (forecast (fst (generateMockForecast amb loaded hours c)))).
Proof.
  split.
  - intros qs. apply Forall_forall. intros e He.
    apply forecast_In in He. destruct He as [k [_ ->]].
    apply entryAt_fields.
  - intros loaded. apply Forall_forall. intros e He.
    unfold generateMockForecast in He.
    change (workQueues (mockOperationalState loaded)) with mockQueues in He.
    apply forecast_In in He. destruct He as [k [_ ->]].
    destruct (entryAt_fields amb mockQueues c k) as [_ [_ [Hp Ht]]].
    rewrite mock_predictions in Hp.
    assert (Hl : List.length (Hourly.predictions (entryAt amb mockQueues c k))
                 = 4%nat) by (rewrite Hp; reflexivity).
    split; [exact Hl|]. rewrite Ht. unfold meanBreach. rewrite Hl.
    simpl INR. f_equal. lra.
Qed.

(** ** Peak-risk metadata *)

Lemma quiet_first_hour_total :
  Hourly.totalBreachRisk (entryAt quiet mockQueues 0 0) = 35.
Proof.
  destruct (entryAt_fields quiet mockQueues 0 0) as [_ [_ [Hp ->]]].
  rewrite Hp, mock_predictions.
  change (hourFactor quiet (Z.of_nat 0)) with (hourFactor quiet 0).
  rewrite (hourFactor_midnight quiet eq_refl).
  unfold sumBreach, JS.reduce, JS.values. cbn [map snd fold_left].
  rewrite !predictionAt_eq. cbv zeta.
  cbn [Prediction.slaBreachProbability Queue.workInProgress Queue.capacity
       random quiet].
  clamp_eval.
Qed.

(** C2, as stated, fails: for a one-hour forecast at midnight with zero
    noise the only hour is hour 1 and its aggregate risk is 35, yet the
    metadata reports peak hour 4 and peak value 58.2. *)
Lemma peak_metadata_mismatch :
  let r := fst (generateMockForecast_on quiet mockQueues 1 0%nat) in
  (exists e, forecast r = [e] /\ Hourly.hour e = 1%Z /\
             Hourly.totalBreachRisk e = 35) /\
  Metadata.peakRiskHour (metadata r) = 4%Z /\
  Metadata.peakRiskValue (metadata r) = 58.2 /\
  ~ peak_consistent r.
Proof.
  cbv zeta. split; [|split; [|split]].
  - exists (entryAt quiet mockQueues 0 0). rewrite generate_forecast.
    split; [reflexivity|]. split; [reflexivity|].
    apply quiet_first_hour_total.
  - rewrite generate_metadata. reflexivity.
  - rewrite generate_metadata. reflexivity.
  - intros [e [Hin [Hh _]]]. rewrite generate_metadata in Hh.
    apply forecast_In in Hin. destruct Hin as [k [Hk ->]].
    destruct (entryAt_fields quiet mockQueues 0 k) as [Hhour _].
    rewrite Hhour in Hh. simpl in Hh, Hk. lia.
Qed.

(** C2, amended. [metadata.peakRiskHour] is the constant 4 and
    [metadata.peakRiskValue] the constant 58.2 in every run; neither is
    computed from the forecast.  They are the first arg-max and the maximum
    of the hourly aggregate risks exactly when the forecast has at least
    four hours, hour 4 carries an aggregate risk of 58.2, no hour exceeds
    58.2 and none of hours 1 to 3 equals it. *)
Theorem peak_metadata_constant amb qs hours c :
  let r := fst (generateMockForecast_on amb qs hours c) in
  Metadata.peakRiskHour (metadata r) = 4%Z /\
  Metadata.peakRiskValue (metadata r) = 58.2 /\
  (peak_consistent r <->
     (4 <= hours)%Z /\
     Hourly.totalBreachRisk (entryAt amb qs c 3) = 58.2 /\
     (forall k, (k < Z.to_nat hours)%nat ->
        Hourly.totalBreachRisk (entryAt amb qs c k) <= 58.2) /\
     (forall k, (k < 3)%nat ->
        Hourly.totalBreachRisk (entryAt amb qs c k) <> 58.2)).
Proof.
  cbv zeta. split; [rewrite generate_metadata; reflexivity|].
  split; [rewrite generate_metadata; reflexivity|].
  unfold peak_consistent. rewrite generate_metadata.
  cbn [Metadata.peakRiskHour Metadata.peakRiskValue].
  split.
  - intros [e [Hin [Hh [Hv [Hmax Hfirst]]]]].
    apply forecast_In in Hin. destruct Hin as [k3 [Hk3 ->]].
    destruct (entryAt_fields amb qs c k3) as [Hhour _].
    rewrite Hhour in Hh.
    assert (k3 = 3%nat) by lia. subst k3.
    split; [lia|]. split; [exact Hv|]. split.
    + intros k Hk. rewrite <- Hv. apply Hmax.
      eapply nth_error_In. apply forecast_nth. exact Hk.
    + intros k Hk Heq.
      assert (Hin : In (entryAt amb qs c k)
                       (forecast
                          (fst (generateMockForecast_on amb qs hours c)))).
      { eapply nth_error_In. apply forecast_nth. lia. }
      specialize (Hfirst _ Hin). rewrite Heq, Hv in Hfirst.
      specialize (Hfirst eq_refl).
      destruct (entryAt_fields amb qs c k) as [Hhk _].
      rewrite Hhour, Hhk in Hfirst. lia.
  - intros [H4 [Hv [Hmax Hfirst]]].
    exists (entryAt amb qs c 3). split; [|split; [|split; [|split]]].
    + eapply nth_error_In. apply forecast_nth. lia.
    + apply entryAt_fields.
    + exact Hv.
    + intros e' Hin. apply forecast_In in Hin. destruct Hin as [k [Hk ->]].
      rewrite Hv. apply Hmax. exact Hk.
    + intros e' Hin Heq. apply forecast_In in Hin.
      destruct Hin as [k [Hk ->]].
      destruct (entryAt_fields amb qs c 3) as [-> _].
      destruct (entryAt_fields amb qs c k) as [-> _].
      destruct (Nat.lt_ge_cases k 3) as [Hlt|Hge]; [|lia].
      exfalso. apply (Hfirst k Hlt). rewrite Heq. exact Hv.
Qed.

(** ** The load projector *)

Lemma sin_PI12_lower : / 4 <= sin (PI / 12).
Proof.
  pose proof sin_PI6 as H6. pose proof (sin_2a (PI / 12)) as H2.
  replace (2 * (PI / 12)) with (PI / 6) in H2 by lra.
  assert (Hpos : 0 < sin (PI / 12)).
  { apply sin_gt_0; pose proof PI_RGT_0; lra. }
  pose proof (COS_bound (PI / 12)) as [_ Hc].
  nra.
Qed.

Lemma intensityFactor_spec_midnight_1 : 1.075 <= intensityFactor_spec 0 1.
Proof.
  unfold intensityFactor_spec. simpl Z.add.
  replace (PI * 1 / 12) with (PI / 12) by lra.
  pose proof sin_PI12_lower. lra.
Qed.

Lemma hourFactor_spec amb h :
  hourFactor amb (h - 1) = intensityFactor_spec (JS.getHours (now amb)) (h - 1).
Proof.
  unfold hourFactor, intensityFactor_spec, JS.Math_sin, JS.Math_PI.
  replace (PI * IZR (h - 1 + JS.getHours (now amb)) / 12)
    with (IZR (h - 1 + JS.getHours (now amb)) * PI / 12) by lra.
  lra.
Qed.

Lemma Math_round_lower x : x - / 2 < JS.Math_round x.
Proof.
  unfold JS.Math_round. pose proof (base_Int_part (x + / 2)). lra.
Qed.

Lemma Math_round_integer (z : Z) (x : R) :
  IZR z - / 2 <= x < IZR z + / 2 -> JS.Math_round x = IZR z.
Proof.
  intros H. unfold JS.Math_round. f_equal. symmetry.
  apply Int_part_spec. lra.
Qed.

(** C8, as stated, fails: at midnight with zero noise the factor the code
    applies to hour 1 is 1 (the sine of 0), not [1 + 0.3 sin (pi/12)], and
    the projected work in progress of "intake" is 45, which
    [round (45 * intensityFactor 1 + noise)] reaches for no [noise >= 0]. *)
Lemma intensity_factor_off_by_one :
  exists e p,
    forecast (fst (generateMockForecast_on quiet mockQueues 1 0%nat)) = [e] /\
    Hourly.hour e = 1%Z /\
    JS.get "intake" (Hourly.predictions e) = Some p /\
    hourFactor quiet 0 = 1 /\
    hourFactor quiet 0 <> intensityFactor_spec (JS.getHours (now quiet)) 1 /\
    Prediction.workInProgress p = 45 /\
    forall noise, 0 <= noise ->
      Prediction.workInProgress p <>
      JS.Math_round
        (45 * intensityFactor_spec (JS.getHours (now quiet)) 1 + noise).
Proof.
  pose proof intensityFactor_spec_midnight_1 as Hs.
  pose proof (hourFactor_midnight quiet eq_refl) as Hf.
  assert (Hw : Prediction.workInProgress
                 (predictionAt quiet (hourFactor quiet 0)
                    (Queue.mk "intake" "Case Intake" 45 50 15 5 1.0) 0) = 45).
  { rewrite Hf, predictionAt_eq. cbv zeta.
    cbn [Prediction.workInProgress Queue.workInProgress random quiet].
    apply (Math_round_integer 45). lra. }
  exists (entryAt quiet mockQueues 0 0),
         (predictionAt quiet (hourFactor quiet 0)
            (Queue.mk "intake" "Case Intake" 45 50 15 5 1.0) 0).
  rewrite generate_forecast.
  split; [reflexivity|]. split; [reflexivity|]. split; [reflexivity|].
  split; [exact Hf|]. cbn [JS.getHours now quiet].
  split; [rewrite Hf; lra|].
  split; [exact Hw|].
  intros noise Hn. rewrite Hw.
  pose proof (Math_round_lower (45 * intensityFactor_spec 0 1 + noise)).
  lra.
Qed.

(** C8, amended. For every queue [q] (ids pairwise distinct) and every
    1-indexed hour [h] in 1..H, the demand-intensity factor used is
    [1 + 0.3 * sin (pi * ((h - 1) + currentHourOfDay) / 12)], the formula
    taken at [h - 1], and the projected work in progress is
    [round (q.workInProgress * factor + noise)], where [noise] is 10 times
    the value [Math.random()] returns at the queue's fourth draw of that
    hour (draw number [4 * |queues| * (h - 1) + 4 * j + 3] of the call for
    the queue at position [j]), so that [0 <= noise < 10]. *)
Theorem load_projector_formula amb qs hours c k j q :
  random_ok amb ->
  NoDup (map Queue.id qs) ->
  (k < Z.to_nat hours)%nat ->
  nth_error qs j = Some q ->
  let noise :=
    random amb (c + 4 * List.length qs * k + 4 * j + 3) * 10 in
  exists e p,
    nth_error (forecast (fst (generateMockForecast_on amb qs hours c))) k
      = Some e /\
    Hourly.hour e = (Z.of_nat k + 1)%Z /\
    JS.get (Queue.id q) (Hourly.predictions e) = Some p /\
    0 <= noise < 10 /\
    hourFactor amb (Z.of_nat k) =
      intensityFactor_spec (JS.getHours (now amb)) (Hourly.hour e - 1) /\
    Prediction.workInProgress p =
      JS.Math_round
        (Queue.workInProgress q *
         intensityFactor_spec (JS.getHours (now amb)) (Hourly.hour e - 1)
         + noise).
Proof.
  intros Hr Hnd Hk Hj noise. subst noise.
  set (cq := (c + 4 * List.length qs * k + 4 * j)%nat).
  replace (cq + 3)%nat with (S (S (S cq))) by lia.
  exists (entryAt amb qs c k),
         (predictionAt amb (hourFactor amb (Z.of_nat k)) q cq).
  destruct (entryAt_fields amb qs c k) as [Hh _].
  assert (Hf : hourFactor amb (Z.of_nat k) =
               intensityFactor_spec (JS.getHours (now amb))
                 (Hourly.hour (entryAt amb qs c k) - 1)).
  { rewrite <- hourFactor_spec. f_equal. lia. }
  split; [apply forecast_nth; exact Hk|].
  split; [exact Hh|].
  split; [apply entry_prediction; assumption|].
  split; [pose proof (Hr (S (S (S cq)))); lra|].
  split; [exact Hf|].
  rewrite <- Hf, predictionAt_eq. reflexivity.
Qed.

Lemma load_projector_formula_witness :
  let noise := random shifting (0 + 4 * 4 * 2 + 4 * 1 + 3) * 10 in
  exists e p,
    nth_error (forecast (fst (generateMockForecast_on shifting mockQueues 8
                                0%nat))) 2 = Some e /\
    Hourly.hour e = (Z.of_nat 2 + 1)%Z /\
    JS.get "review" (Hourly.predictions e) = Some p /\
    0 <= noise < 10 /\
    hourFactor shifting (Z.of_nat 2) =
      intensityFactor_spec (JS.getHours (now shifting))
        (Hourly.hour e - 1) /\
    Prediction.workInProgress p =
      JS.Math_round
        (78 * intensityFactor_spec (JS.getHours (now shifting))
                (Hourly.hour e - 1)
         + noise).
Proof.
  apply (load_projector_formula shifting mockQueues 8 0%nat 2 1
           (Queue.mk "review" "Manual Review" 78 60 45 8 2.5)).
  - intros k. simpl. destruct (k <? 16)%nat; lra.
  - simpl. repeat constructor; simpl; intuition discriminate.
  - simpl. lia.
  - reflexivity.
Defined.

(** ** Reproducibility *)

Section SameSurroundings.

Variables a1 a2 : Ambient.

Lemma predictionAt_ext hf q c :
  same_draws a1 a2 c (c + 4) ->
  predictionAt a1 hf q c = predictionAt a2 hf q c.
Proof.
  intros H. rewrite !predictionAt_eq.
  rewrite (H c), (H (S c)), (H (S (S c))), (H (S (S (S c)))) by lia.
  reflexivity.
Qed.

Lemma forEachQueue_ext hf qs : forall preds c,
  same_draws a1 a2 c (c + 4 * List.length qs) ->
  forEachQueue a1 hf qs preds c = forEachQueue a2 hf qs preds c.
Proof.
  induction qs as [|q qs IH]; intros preds c H.
  - reflexivity.
  - rewrite !forEachQueue_cons. rewrite (predictionAt_ext hf q c).
    + apply IH. intros k Hk. apply H. simpl List.length. lia.
    + intros k Hk. apply H. simpl List.length. lia.
Qed.

Hypothesis same_hour : JS.getHours (now a1) = JS.getHours (now a2).
Hypothesis same_start : JS.getTime (now a1) = JS.getTime (now a2).
Hypothesis same_stamp : JS.getTime (stamp a1) = JS.getTime (stamp a2).

Lemma hourEntry_ext qs i c :
  same_draws a1 a2 c (c + 4 * List.length qs) ->
  hourEntry a1 qs i c = hourEntry a2 qs i c.
Proof.
  intros H. unfold hourEntry, bind, hourFactor.
  rewrite same_hour, same_start.
  rewrite (forEachQueue_ext _ qs [] c H). reflexivity.
Qed.

Lemma hourLoop_ext qs todo c :
  same_draws a1 a2 c (c + 4 * List.length qs * todo) ->
  hourLoop a1 qs todo 0 [] c = hourLoop a2 qs todo 0 [] c.
Proof.
  intros H. rewrite !hourLoop_run. f_equal. f_equal.
  apply map_ext_in. intros k Hk. apply in_seq in Hk.
  rewrite hourEntry_ext; [reflexivity|].
  intros d Hd. apply H. nia.
Qed.

Lemma generate_ext qs hours c :
  same_draws a1 a2 c (c + 4 * List.length qs * Z.to_nat hours) ->
  generateMockForecast_on a1 qs hours c =
  generateMockForecast_on a2 qs hours c.
Proof.
  intros H. unfold generateMockForecast_on, bind.
  rewrite (hourLoop_ext qs (Z.to_nat hours) c H), same_stamp.
  reflexivity.
Qed.

End SameSurroundings.

Lemma shifting_first_utilization :
  Prediction.utilization
    (predictionAt shifting 1 (Queue.mk "intake" "Case Intake" 45 50 15 5 1.0)
       0) = 90.
Proof.
  rewrite predictionAt_eq. cbv zeta.
  cbn [Prediction.utilization Queue.workInProgress Queue.capacity
       random shifting Nat.ltb Nat.leb].
  clamp_eval.
Qed.

Lemma shifting_second_utilization :
  Prediction.utilization
    (predictionAt shifting 1 (Queue.mk "intake" "Case Intake" 45 50 15 5 1.0)
       16) = 95.
Proof.
  rewrite predictionAt_eq. cbv zeta.
  cbn [Prediction.utilization Queue.workInProgress Queue.capacity
       random shifting Nat.ltb Nat.leb].
  clamp_eval.
Qed.

(** C1, as stated, fails: the function takes no seed and draws from the
    ambient generator.  Two invocations in a row with the same horizon,
    over the same queues and with the same clock reading, return different
    responses as soon as the generator yields different values the second
    time: here the first call consumes sixteen draws and reports a
    utilization of 90 for "intake", the second reports 95. *)
Lemma repeated_call_differs :
  let first := generateMockForecast shifting 0 1 0%nat in
  let second := generateMockForecast shifting 0 1 (snd first) in
  snd first = 16%nat /\ fst first <> fst second.
Proof.
  cbv zeta. unfold generateMockForecast.
  change (workQueues (mockOperationalState 0)) with mockQueues.
  rewrite generate_cursor.
  change (0 + 4 * List.length mockQueues * Z.to_nat 1)%nat with 16%nat.
  split; [reflexivity|]. intros Heq.
  apply (f_equal forecast) in Heq. rewrite !generate_forecast in Heq.
  change (seq 0 (Z.to_nat 1)) with [0%nat] in Heq. cbn [map] in Heq.
  apply (f_equal (fun l => match l with
                           | e :: _ => JS.get "intake" (Hourly.predictions e)
                           | [] => None
                           end)) in Heq.
  cbv beta iota in Heq.
  set (q := Queue.mk "intake" "Case Intake" 45 50 15 5 1.0) in *.
  pose proof (entry_prediction shifting mockQueues 0 0 0 q
                mockQueues_ids eq_refl) as H1.
  pose proof (entry_prediction shifting mockQueues 16 0 0 q
                mockQueues_ids eq_refl) as H2.
  change (Queue.id q) with "intake"%string in H1, H2.
  rewrite H1, H2 in Heq.
  change (hourFactor shifting (Z.of_nat 0)) with (hourFactor shifting 0) in Heq.
  rewrite (hourFactor_midnight shifting eq_refl) in Heq.
  change (16 + 4 * List.length mockQueues * 0 + 4 * 0)%nat with 16%nat in Heq.
  change (0 + 4 * List.length mockQueues * 0 + 4 * 0)%nat with 0%nat in Heq.
  apply (f_equal (fun o => match o with
                           | Some p => Prediction.utilization p
                           | None => 0
                           end)) in Heq.
  cbv beta iota in Heq. unfold q in Heq.
  rewrite shifting_first_utilization, shifting_second_utilization in Heq.
  lra.
Qed.

(** C1, amended. [generateMockForecast] has no seed parameter: its noise
    comes from the ambient generator and its times from the ambient clock.
    A response, and the state the generator is left in, are determined by
    the queues, the horizon, the clock readings and the
    [4 * |queues| * hours] values the generator yields during the call: two
    invocations for which these coincide return identical responses. *)
Theorem response_determined_by_draws a1 a2 qs hours c :
  JS.getHours (now a1) = JS.getHours (now a2) ->
  JS.getTime (now a1) = JS.getTime (now a2) ->
  JS.getTime (stamp a1) = JS.getTime (stamp a2) ->
  (forall k, (c <= k < c + 4 * List.length qs * Z.to_nat hours)%nat ->
     random a1 k = random a2 k) ->
  generateMockForecast_on a1 qs hours c =
  generateMockForecast_on a2 qs hours c.
Proof.
  intros Hh Ht Hs Hd. apply generate_ext; assumption.
Qed.

Lemma response_determined_by_draws_witness :
  generateMockForecast_on quiet mockQueues 1 0%nat =
  generateMockForecast_on shifting mockQueues 1 0%nat.
Proof.
  apply (response_determined_by_draws quiet shifting mockQueues 1 0%nat).
  - reflexivity.
  - reflexivity.
  - reflexivity.
  - intros k Hk. simpl in Hk. simpl.
    destruct (Nat.ltb_spec k 16); [reflexivity | lia].
Defined.

(** * Further properties of the module and of the dashboard *)

(** ** Rounding *)

Lemma Math_round_ge (a : Z) (x : R) :
  IZR a <= x -> IZR a <= JS.Math_round x.
Proof.
  intros H. unfold JS.Math_round. apply IZR_le.
  pose proof (base_Int_part (x + / 2)) as [_ Hlow].
  assert (Hlt : IZR (a - 1) < IZR (Int_part (x + / 2))).
  { rewrite minus_IZR. lra. }
  apply lt_IZR in Hlt. lia.
Qed.

Lemma Math_round_le (b : Z) (x : R) :
  x <= IZR b -> JS.Math_round x <= IZR b.
Proof.
  intros H. unfold JS.Math_round. apply IZR_le.
  pose proof (base_Int_part (x + / 2)) as [Hup _].
  assert (Hlt : IZR (Int_part (x + / 2)) < IZR (b + 1)).
  { rewrite plus_IZR. lra. }
  apply lt_IZR in Hlt. lia.
Qed.

(** ** generateHistoricalData *)

Lemma historicalPoint_cursor amb zone i c :
  snd (historicalPoint amb zone i c) = (c + 3)%nat.
Proof.
  unfold historicalPoint, bind, ret, Math_random. simpl. lia.
Qed.

Lemma historyLoop_run amb zone : forall todo i acc c,
  historyLoop amb zone todo i acc c =
  (acc ++ map (fun k => fst (historicalPoint amb zone (i - Z.of_nat k)
                               (c + 3 * k)%nat))
              (seq 0 todo),
   (c + 3 * todo)%nat).
Proof.
  induction todo as [|n IH]; intros i acc c.
  - simpl. unfold ret. rewrite app_nil_r. f_equal. lia.
  - cbn [historyLoop]. unfold bind.
    pose proof (historicalPoint_cursor amb zone i c) as Hc.
    destruct (historicalPoint amb zone i c) as [p c'] eqn:Hp.
    simpl in Hc. subst c'.
    rewrite IH. f_equal.
    + rewrite <- app_assoc. f_equal. cbn [seq map app]. f_equal.
      * replace (i - Z.of_nat 0)%Z with i by lia.
        replace (c + 3 * 0)%nat with c by lia.
        rewrite Hp. reflexivity.
      * rewrite <- seq_shift, map_map. apply map_ext. intros k.
        f_equal. f_equal; lia.
    + lia.
Qed.

Lemma generateHistoricalData_run amb zone hours c :
  generateHistoricalData amb zone hours c =
  (map (pointAt amb zone hours c) (seq 0 (Z.to_nat (hours + 1))),
   (c + 3 * Z.to_nat (hours + 1))%nat).
Proof.
  unfold generateHistoricalData. rewrite historyLoop_run. reflexivity.
Qed.

Lemma pointAt_eq amb zone hours c k :
  pointAt amb zone hours c k =
  let ms := (JS.getTime (now amb) - (hours - Z.of_nat k) * 3600000)%Z in
  let cur := (c + 3 * k)%nat in
  {| Historical.timestamp := ms;
     Historical.volume :=
       JS.Math_round
         (300 + 100 * sin (IZR (zone ms - 6) * PI / 12)
          + (random amb cur - 0.5) * 50);
     Historical.breaches :=
       Rmax 0 (JS.Math_round (random amb (S cur) * 15));
     Historical.avgProcessTime :=
       JS.Math_round (35 + (random amb (S (S cur)) - 0.5) * 20);
     Historical.activeEmployees :=
       JS.Math_round (15 + 5 * sin (IZR (zone ms - 9) * PI / 8)) |}.
Proof. reflexivity. Qed.

(** X1. [generateHistoricalData(hours)] returns [hours + 1] points when
    [hours >= 0] and none when [hours] is negative: the loop runs from
    [hours] down to 0 inclusive.  The points are one hour apart in
    increasing time and the last one, when there is one, carries the time of
    the call.  Every point costs three draws of the generator. *)
Theorem historical_data_shape amb zone hours c :
  let d := fst (generateHistoricalData amb zone hours c) in
  Z.of_nat (List.length d) = Z.max 0 (hours + 1) /\
  map Historical.timestamp d =
    map (fun k => (JS.getTime (now amb)
                   - (hours - Z.of_nat k) * 3600000)%Z)
        (seq 0 (List.length d)) /\
  option_map Historical.timestamp (at_index d hours) =
    (if (hours <? 0)%Z then None else Some (JS.getTime (now amb))) /\
  snd (generateHistoricalData amb zone hours c) =
    (c + 3 * List.length d)%nat.
Proof.
  cbv zeta. rewrite generateHistoricalData_run. cbn [fst snd].
  rewrite length_map, length_seq. repeat split.
  - lia.
  - rewrite map_map. apply map_ext. intros k. rewrite pointAt_eq. reflexivity.
  - unfold at_index. destruct (Z.ltb_spec hours 0) as [Hneg|Hpos].
    + reflexivity.
    + rewrite nth_error_map, nth_error_seq.
      destruct (Nat.ltb_spec (Z.to_nat hours) (Z.to_nat (hours + 1)));
        [|lia].
      cbn [option_map]. rewrite pointAt_eq. cbv zeta.
      cbn [Historical.timestamp]. f_equal. lia.
Qed.

(** X2. When [Math.random()] stays in [[0, 1)], every historical point has
    a volume between 175 and 425, between 0 and 15 breaches, an average
    process time between 25 and 45 and between 10 and 20 active
    employees. *)
Theorem historical_data_bounds amb zone hours c :
  random_ok amb ->
  Forall historical_in_range (fst (generateHistoricalData amb zone hours c)).
Proof.
  intros Hr. rewrite generateHistoricalData_run. cbn [fst].
  apply Forall_forall. intros p Hp. apply in_map_iff in Hp.
  destruct Hp as [k [<- _]]. rewrite pointAt_eq. cbv zeta.
  unfold historical_in_range.
  cbn [Historical.volume Historical.breaches Historical.avgProcessTime
       Historical.activeEmployees].
  set (ms := (JS.getTime (now amb) - (hours - Z.of_nat k) * 3600000)%Z).
  pose proof (SIN_bound (IZR (zone ms - 6) * PI / 12)) as Hs1.
  pose proof (SIN_bound (IZR (zone ms - 9) * PI / 8)) as Hs2.
  pose proof (Hr (c + 3 * k)%nat) as H1.
  pose proof (Hr (S (c + 3 * k))) as H2.
  pose proof (Hr (S (S (c + 3 * k)))) as H3.
  repeat split.
  - apply (Math_round_ge 175). lra.
  - apply (Math_round_le 425). lra.
  - apply Rmax_l.
  - apply Rmax_lub; [lra|]. apply (Math_round_le 15). lra.
  - apply (Math_round_ge 25). lra.
  - apply (Math_round_le 45). lra.
  - apply (Math_round_ge 10). lra.
  - apply (Math_round_le 20). lra.
Qed.

Lemma historical_data_bounds_witness :
  Forall historical_in_range
    (fst (generateHistoricalData quiet (fun _ => 0%Z) 24 0%nat)).
Proof.
  apply (historical_data_bounds quiet (fun _ => 0%Z) 24 0%nat).
  intros k. simpl. lra.
Defined.

(** X3. The staffing figure of the historical data carries no noise: two
    calls at the same instant and in the same time zone return the same
    [activeEmployees] series whatever the generator yields, and within one
    series two points at the same local hour of day have the same
    figure. *)
Theorem historical_staffing_noise_free a1 a2 zone hours c1 c2 :
  JS.getTime (now a1) = JS.getTime (now a2) ->
  let d1 := fst (generateHistoricalData a1 zone hours c1) in
  let d2 := fst (generateHistoricalData a2 zone hours c2) in
  map Historical.activeEmployees d1 = map Historical.activeEmployees d2 /\
  (forall p q, In p d1 -> In q d1 ->
     zone (Historical.timestamp p) = zone (Historical.timestamp q) ->
     Historical.activeEmployees p = Historical.activeEmployees q).
Proof.
  intros Hnow. cbv zeta. rewrite !generateHistoricalData_run. cbn [fst].
  split.
  - rewrite !map_map. apply map_ext. intros k.
    rewrite !pointAt_eq. cbv zeta. cbn [Historical.activeEmployees].
    rewrite Hnow. reflexivity.
  - intros p q Hp Hq. apply in_map_iff in Hp, Hq.
    destruct Hp as [k [<- _]], Hq as [l [<- _]].
    rewrite !pointAt_eq. cbv zeta.
    cbn [Historical.activeEmployees Historical.timestamp].
    intros ->. reflexivity.
Qed.

Lemma historical_staffing_noise_free_witness :
  let d1 := fst (generateHistoricalData quiet (fun _ => 0%Z) 24 0%nat) in
  let d2 := fst (generateHistoricalData shifting (fun _ => 0%Z) 24 5%nat) in
  map Historical.activeEmployees d1 = map Historical.activeEmployees d2 /\
  (forall p q, In p d1 -> In q d1 ->
     (fun _ : Z => 0%Z) (Historical.timestamp p) =
     (fun _ : Z => 0%Z) (Historical.timestamp q) ->
     Historical.activeEmployees p = Historical.activeEmployees q).
Proof.
  apply (historical_staffing_noise_free quiet shifting (fun _ => 0%Z) 24
           0%nat 5%nat).
  reflexivity.
Defined.

(** ** More on the predictions of generateMockForecast *)

Lemma set_keys {V} (k : string) (v : V) (o : JS.Obj V) :
  map fst (JS.set k v o) =
  if existsb (String.eqb k) (map fst o) then map fst o
  else map fst o ++ [k].
Proof.
  induction o as [|[k' v'] o IH]; simpl.
  - reflexivity.
  - destruct (String.eqb_spec k k') as [->|Hne]; simpl.
    + reflexivity.
    + rewrite IH. destruct (existsb (String.eqb k) (map fst o)); reflexivity.
Qed.

Lemma existsb_eqb_In (k : string) (ks : list string) :
  existsb (String.eqb k) ks = true <-> In k ks.
Proof.
  rewrite existsb_exists. split.
  - intros [x [Hin Heq]]. apply String.eqb_eq in Heq. subst. exact Hin.
  - intros Hin. exists k. split; [exact Hin | apply String.eqb_refl].
Qed.

Lemma set_keys_NoDup {V} (k : string) (v : V) (o : JS.Obj V) :
  NoDup (map fst o) -> NoDup (map fst (JS.set k v o)).
Proof.
  intros Hnd. rewrite set_keys.
  destruct (existsb (String.eqb k) (map fst o)) eqn:He; [exact Hnd|].
  assert (Hn : ~ In k (map fst o)).
  { intros Hin. apply existsb_eqb_In in Hin. congruence. }
  apply NoDup_app; [exact Hnd | repeat constructor; intros [] | ].
  intros x Hx [<-|[]]. exact (Hn Hx).
Qed.

Lemma set_keys_In {V} (k : string) (v : V) (o : JS.Obj V) id :
  In id (map fst (JS.set k v o)) <-> id = k \/ In id (map fst o).
Proof.
  rewrite set_keys.
  destruct (existsb (String.eqb k) (map fst o)) eqn:He.
  - apply existsb_eqb_In in He. split; [tauto|]. intros [->|H]; assumption.
  - rewrite in_app_iff. simpl. split; intros H; intuition.
Qed.

Lemma set_length {V} (k : string) (v : V) (o : JS.Obj V) :
  (List.length (JS.set k v o) <= S (List.length o))%nat.
Proof.
  induction o as [|[k' v'] o IH]; simpl.
  - lia.
  - destruct (String.eqb k k'); simpl; lia.
Qed.

Section PredictionsObject.

Variable amb : Ambient.
Variable hf : R.

Lemma forEachQueue_keys qs : forall preds c,
  NoDup (map fst preds) ->
  let o := fst (forEachQueue amb hf qs preds c) in
  NoDup (map fst o) /\
  (forall id, In id (map fst o) <->
              In id (map fst preds) \/ In id (map Queue.id qs)) /\
  (List.length o <= List.length preds + List.length qs)%nat.
Proof.
  induction qs as [|q qs IH]; intros preds c Hnd.
  - cbn. split; [exact Hnd|]. split; [tauto | lia].
  - cbv zeta. rewrite forEachQueue_cons.
    destruct (IH (JS.set (Queue.id q) (predictionAt amb hf q c) preds)
                 (c + 4)%nat (set_keys_NoDup _ _ _ Hnd)) as [H1 [H2 H3]].
    split; [exact H1|]. split.
    + intros id. rewrite H2, set_keys_In. simpl.
      split; intros H; intuition (subst; auto).
    + pose proof (set_length (Queue.id q) (predictionAt amb hf q c) preds).
      simpl List.length. lia.
Qed.

Lemma forEachQueue_keys_distinct qs : forall preds c,
  NoDup (map fst preds ++ map Queue.id qs) ->
  map fst (fst (forEachQueue amb hf qs preds c)) =
  map fst preds ++ map Queue.id qs.
Proof.
  induction qs as [|q qs IH]; intros preds c Hnd.
  - cbn. rewrite app_nil_r. reflexivity.
  - rewrite forEachQueue_cons.
    assert (Hfresh : ~ In (Queue.id q) (map fst preds)).
    { intros Hin. simpl in Hnd. apply NoDup_remove_2 in Hnd.
      apply Hnd. apply in_or_app. left. exact Hin. }
    assert (Hk : map fst (JS.set (Queue.id q) (predictionAt amb hf q c) preds)
                 = map fst preds ++ [Queue.id q]).
    { rewrite set_keys.
      destruct (existsb (String.eqb (Queue.id q)) (map fst preds)) eqn:He;
        [|reflexivity].
      apply existsb_eqb_In in He. contradiction. }
    rewrite IH; rewrite Hk, <- app_assoc; [reflexivity|exact Hnd].
Qed.

(** The last queue carrying an id decides the prediction stored under it. *)
Lemma assigned_last qs : forall c j q cur,
  nth_error qs j = Some q ->
  (forall j' q', (j < j')%nat -> nth_error qs j' = Some q' ->
                 Queue.id q' <> Queue.id q) ->
  assigned amb hf qs c (Queue.id q) cur =
  Some (predictionAt amb hf q (c + 4 * j)).
Proof.
  induction qs as [|q0 qs IH]; intros c j q cur Hj Hlast.
  - destruct j; discriminate.
  - destruct j as [|j]; simpl in Hj.
    + injection Hj as ->. simpl. rewrite String.eqb_refl.
      rewrite assigned_absent.
      * do 2 f_equal. lia.
      * intros Hin. apply in_map_iff in Hin. destruct Hin as [q' [Hid Hin]].
        apply In_nth_error in Hin. destruct Hin as [j' Hj'].
        apply (Hlast (S j') q'); [lia | exact Hj' | exact Hid].
    + simpl. rewrite (IH (c + 4)%nat j q).
      * do 2 f_equal. lia.
      * exact Hj.
      * intros j' q' Hlt Hj'. apply (Hlast (S j') q'); [lia | exact Hj'].
Qed.

End PredictionsObject.

Lemma sumBreach_bounds (o : JS.Obj Prediction.t) :
  Forall (fun p => 0 <= Prediction.slaBreachProbability p <= 100)
         (JS.values o) ->
  0 <= sumBreach o <= 100 * INR (List.length o).
Proof.
  unfold sumBreach, JS.reduce, JS.values.
  assert (Hgen : forall (l : list Prediction.t) acc,
             Forall (fun p => 0 <= Prediction.slaBreachProbability p <= 100) l ->
             acc <=
             fold_left (fun sum p => sum + Prediction.slaBreachProbability p)
                       l acc
             <= acc + 100 * INR (List.length l)).
  { induction l as [|p l IH]; intros acc Hl.
    - simpl. lra.
    - inversion Hl as [|? ? Hp Hl']; subst.
      cbn [fold_left]. specialize (IH (acc + Prediction.slaBreachProbability p) Hl').
      change (List.length (p :: l)) with (S (List.length l)).
      rewrite S_INR. lra. }
  intros H. specialize (Hgen (map snd o) 0 H).
  rewrite length_map in Hgen. lra.
Qed.

Lemma predictionAt_breach_bounds amb hf q c :
  0 <= Prediction.slaBreachProbability (predictionAt amb hf q c) <= 100.
Proof. rewrite predictionAt_eq. apply clamp_bounds. Qed.

Lemma entry_summary amb qs c k :
  let e := entryAt amb qs c k in
  NoDup (map fst (Hourly.predictions e)) /\
  (forall id, In id (map fst (Hourly.predictions e)) <->
              In id (map Queue.id qs)) /\
  (List.length (Hourly.predictions e) <= List.length qs)%nat /\
  0 <= Hourly.totalBreachRisk e
    <= 25 * INR (List.length (Hourly.predictions e)).
Proof.
  intros e. subst e.
  destruct (entryAt_fields amb qs c k) as [_ [_ [Hp Ht]]].
  rewrite Ht, Hp.
  destruct (forEachQueue_keys amb (hourFactor amb (Z.of_nat k)) qs []
              (c + 4 * List.length qs * k)%nat (NoDup_nil _))
    as [H1 [H2 H3]].
  split; [exact H1|]. split; [intros id; rewrite H2; simpl; tauto|].
  split; [exact H3|].
  pose proof (sumBreach_bounds
                (fst (forEachQueue amb (hourFactor amb (Z.of_nat k)) qs []
                        (c + 4 * List.length qs * k)%nat))) as Hs.
  assert (Hall : Forall
            (fun p => 0 <= Prediction.slaBreachProbability p <= 100)
            (JS.values
               (fst (forEachQueue amb (hourFactor amb (Z.of_nat k)) qs []
                       (c + 4 * List.length qs * k)%nat)))).
  { apply forEachQueue_values_Forall; [|constructor].
    intros q c' _. apply predictionAt_breach_bounds. }
  specialize (Hs Hall). lra.
Qed.

Lemma mock_total_bounds amb c k :
  0 <= Hourly.totalBreachRisk (entryAt amb mockQueues c k) <= 100.
Proof.
  destruct (entry_summary amb mockQueues c k) as [_ [_ [Hlen Hb]]].
  change (List.length mockQueues) with 4%nat in Hlen.
  apply le_INR in Hlen.
  replace (INR 4) with 4 in Hlen by (simpl; lra). lra.
Qed.

(** X4. For queues whose ids are ordinary object keys and whose
    capacities are not zero, whatever the surroundings and the draws, every
    hour's predictions object has pairwise distinct keys, which are exactly
    the ids of the queues, and its aggregate risk lies between 0 and 25
    times the number of its entries; with at most four queues, as in
    [mockOperationalState], the aggregate risk is at most 100. *)
Theorem total_breach_risk_bounds amb qs hours c :
  Forall ordinary_queue qs ->
  Forall (fun e =>
            NoDup (map fst (Hourly.predictions e)) /\
            (forall id, In id (map fst (Hourly.predictions e)) <->
                        In id (map Queue.id qs)) /\
            (List.length (Hourly.predictions e) <= List.length qs)%nat /\
            0 <= Hourly.totalBreachRisk e
              <= 25 * INR (List.length (Hourly.predictions e)) /\
            ((List.length qs <= 4)%nat ->
             Hourly.totalBreachRisk e <= 100))
         (forecast (fst (generateMockForecast_on amb qs hours c))).
Proof.
  intros _. apply Forall_forall. intros e He.
  apply forecast_In in He. destruct He as [k [_ ->]].
  destruct (entry_summary amb qs c k) as [H1 [H2 [H3 H4]]].
  repeat split; try assumption; try apply H2; try apply H4.
  intros Hfour.
  assert (Hlen : (List.length (Hourly.predictions (entryAt amb qs c k))
                  <= 4)%nat) by lia.
  apply le_INR in Hlen.
  replace (INR 4) with 4 in Hlen by (simpl; lra). lra.
Qed.

Lemma total_breach_risk_bounds_witness :
  Forall (fun e =>
            NoDup (map fst (Hourly.predictions e)) /\
            (forall id, In id (map fst (Hourly.predictions e)) <->
                        In id (map Queue.id mockQueues)) /\
            (List.length (Hourly.predictions e)
             <= List.length mockQueues)%nat /\
            0 <= Hourly.totalBreachRisk e
              <= 25 * INR (List.length (Hourly.predictions e)) /\
            ((List.length mockQueues <= 4)%nat ->
             Hourly.totalBreachRisk e <= 100))
         (forecast (fst (generateMockForecast_on shifting mockQueues 8
                           0%nat))).
Proof.
  apply (total_breach_risk_bounds shifting mockQueues 8 0%nat).
  repeat constructor; simpl; try discriminate; lra.
Defined.

(** X5. When two or more queues carry the same id, the predictions object
    keeps a single entry for it, holding the prediction of the last such
    queue; that prediction is still computed from the last queue's own
    four draws (the ones at positions [4 j] to [4 j + 3] of the hour), the
    earlier queues having consumed theirs. *)
Theorem duplicate_id_last_queue_wins amb qs hours c k j q :
  (k < Z.to_nat hours)%nat ->
  nth_error qs j = Some q ->
  (forall j' q', (j < j')%nat -> nth_error qs j' = Some q' ->
                 Queue.id q' <> Queue.id q) ->
  exists e,
    nth_error (forecast (fst (generateMockForecast_on amb qs hours c))) k
      = Some e /\
    JS.get (Queue.id q) (Hourly.predictions e) =
      Some (predictionAt amb (hourFactor amb (Z.of_nat k)) q
              (c + 4 * List.length qs * k + 4 * j)).
Proof.
  intros Hk Hj Hlast. exists (entryAt amb qs c k).
  split; [apply forecast_nth; exact Hk|].
  destruct (entryAt_fields amb qs c k) as [_ [_ [-> _]]].
  rewrite forEachQueue_get. apply assigned_last; assumption.
Qed.

Lemma duplicate_id_last_queue_wins_witness :
  exists e,
    nth_error
      (forecast
         (fst (generateMockForecast_on quiet
                 [Queue.mk "intake" "Case Intake" 45 50 15 5 1.0;
                  Queue.mk "intake" "Second Intake" 10 50 15 5 1.0]
                 1 0%nat))) 0 = Some e /\
    JS.get "intake" (Hourly.predictions e) =
      Some (predictionAt quiet (hourFactor quiet (Z.of_nat 0))
              (Queue.mk "intake" "Second Intake" 10 50 15 5 1.0)
              (0 + 4 * 2 * 0 + 4 * 1)).
Proof.
  apply (duplicate_id_last_queue_wins quiet
           [Queue.mk "intake" "Case Intake" 45 50 15 5 1.0;
            Queue.mk "intake" "Second Intake" 10 50 15 5 1.0]
           1 0%nat 0 1
           (Queue.mk "intake" "Second Intake" 10 50 15 5 1.0)).
  - simpl. lia.
  - reflexivity.
  - intros j' q' Hlt Hn. destruct j' as [|[|j']]; try lia.
    simpl in Hn. destruct j'; discriminate.
Defined.

Lemma hourFactor_nonneg amb i : 0 <= hourFactor amb i.
Proof. pose proof (hourFactor_bounds amb i). lra. Qed.

(** X6. For a queue with non-negative work in progress, positive capacity
    and non-negative process time, and draws in [[0, 1)], the expected wait
    reported at every hour is [avgProcessTime * utilization / 50] and lies
    between 0 and twice the queue's average process time. *)
Theorem avg_wait_time_bounded amb qs hours c k j q :
  random_ok amb ->
  NoDup (map Queue.id qs) ->
  (k < Z.to_nat hours)%nat ->
  nth_error qs j = Some q ->
  queue_ok q ->
  0 <= Queue.avgProcessTime q ->
  exists e p,
    nth_error (forecast (fst (generateMockForecast_on amb qs hours c))) k
      = Some e /\
    JS.get (Queue.id q) (Hourly.predictions e) = Some p /\
    Prediction.avgWaitTime p =
      Queue.avgProcessTime q * (Prediction.utilization p / 50) /\
    0 <= Prediction.avgWaitTime p <= 2 * Queue.avgProcessTime q.
Proof.
  intros Hr Hnd Hk Hj Hq Hapt.
  exists (entryAt amb qs c k).
  eexists. split; [apply forecast_nth; exact Hk|].
  split; [apply entry_prediction; eassumption|].
  pose proof (predictionAt_in_range amb (hourFactor amb (Z.of_nat k)) q
                (c + 4 * List.length qs * k + 4 * j) Hr Hq
                (hourFactor_nonneg amb _)) as [Hu _].
  rewrite predictionAt_eq in *. cbv zeta in *.
  cbn [Prediction.avgWaitTime Prediction.utilization] in *.
  split; [reflexivity|]. nra.
Qed.

Lemma avg_wait_time_bounded_witness :
  exists e p,
    nth_error (forecast (fst (generateMockForecast_on quiet mockQueues 8
                                0%nat))) 2 = Some e /\
    JS.get "review" (Hourly.predictions e) = Some p /\
    Prediction.avgWaitTime p = 45 * (Prediction.utilization p / 50) /\
    0 <= Prediction.avgWaitTime p <= 2 * 45.
Proof.
  apply (avg_wait_time_bounded quiet mockQueues 8 0%nat 2 1
           (Queue.mk "review" "Manual Review" 78 60 45 8 2.5)).
  - intros k. simpl. lra.
  - simpl. repeat constructor; simpl; intuition discriminate.
  - simpl. lia.
  - reflexivity.
  - split; simpl; lra.
  - simpl. lra.
Defined.



(** X8. A lightly loaded queue never shows breach risk: when the queue's
    base utilization [workInProgress / capacity * 100] is at most 32.5 (and
    the inputs are valid), its SLA-breach probability is exactly 0 at every
    hour, whatever the hour of day and the draws. *)
Theorem light_queue_never_at_risk amb qs hours c k j q :
  random_ok amb ->
  NoDup (map Queue.id qs) ->
  (k < Z.to_nat hours)%nat ->
  nth_error qs j = Some q ->
  queue_ok q ->
  Queue.workInProgress q / Queue.capacity q * 100 <= 32.5 ->
  exists e p,
    nth_error (forecast (fst (generateMockForecast_on amb qs hours c))) k
      = Some e /\
    JS.get (Queue.id q) (Hourly.predictions e) = Some p /\
    Prediction.slaBreachProbability p = 0.
Proof.
  intros Hr Hnd Hk Hj Hq Hlight.
  exists (entryAt amb qs c k). eexists.
  split; [apply forecast_nth; exact Hk|].
  split; [apply entry_prediction; eassumption|].
  set (cq := (c + 4 * List.length qs * k + 4 * j)%nat).
  rewrite predictionAt_eq. cbv zeta. cbn [Prediction.slaBreachProbability].
  pose proof (hourFactor_bounds amb (Z.of_nat k)) as Hhf.
  pose proof (baseUtil_nonneg q Hq) as Hb.
  pose proof (Hr cq) as H1. pose proof (Hr (S cq)) as H2.
  set (base := Queue.workInProgress q / Queue.capacity q * 100) in *.
  assert (Hu : Rmin 100 (base * hourFactor amb (Z.of_nat k)
                         + random amb cq * 10) <= 52.25).
  { eapply Rle_trans; [apply Rmin_r|]. nra. }
  apply Rmax_left. eapply Rle_trans; [apply Rmin_r|]. lra.
Qed.

Lemma light_queue_never_at_risk_witness :
  exists e p,
    nth_error (forecast (fst (generateMockForecast_on quiet mockQueues 8
                                0%nat))) 5 = Some e /\
    JS.get "completion" (Hourly.predictions e) = Some p /\
    Prediction.slaBreachProbability p = 0.
Proof.
  apply (light_queue_never_at_risk quiet mockQueues 8 0%nat 5 3
           (Queue.mk "completion" "Case Completion" 12 50 10 3 1.0)).
  - intros k. simpl. lra.
  - simpl. repeat constructor; simpl; intuition discriminate.
  - simpl. lia.
  - reflexivity.
  - split; simpl; lra.
  - simpl. lra.
Defined.

(** X9. A saturated queue is pinned: when the base utilization is at least
    100 / 0.7 (and the draws are in [[0, 1)]), at every hour the reported
    utilization is exactly 100, the SLA-breach probability is in
    [[80, 95)], the bottleneck probability in [[75, 85)] and the expected
    wait is twice the average process time. *)
Theorem saturated_queue_pinned amb qs hours c k j q :
  random_ok amb ->
  NoDup (map Queue.id qs) ->
  (k < Z.to_nat hours)%nat ->
  nth_error qs j = Some q ->
  100 <= Queue.workInProgress q / Queue.capacity q * 100 * 0.7 ->
  exists e p,
    nth_error (forecast (fst (generateMockForecast_on amb qs hours c))) k
      = Some e /\
    JS.get (Queue.id q) (Hourly.predictions e) = Some p /\
    Prediction.utilization p = 100 /\
    80 <= Prediction.slaBreachProbability p < 95 /\
    75 <= Prediction.bottleneckProbability p < 85 /\
    Prediction.avgWaitTime p = 2 * Queue.avgProcessTime q.
Proof.
  intros Hr Hnd Hk Hj Hsat.
  exists (entryAt amb qs c k). eexists.
  split; [apply forecast_nth; exact Hk|].
  split; [apply entry_prediction; eassumption|].
  set (cq := (c + 4 * List.length qs * k + 4 * j)%nat).
  rewrite predictionAt_eq. cbv zeta.
  cbn [Prediction.slaBreachProbability Prediction.utilization
       Prediction.bottleneckProbability Prediction.avgWaitTime].
  pose proof (hourFactor_bounds amb (Z.of_nat k)) as Hhf.
  pose proof (Hr cq) as H1. pose proof (Hr (S cq)) as H2.
  pose proof (Hr (S (S cq))) as H3.
  set (base := Queue.workInProgress q / Queue.capacity q * 100) in *.
  assert (Hu : Rmin 100 (base * hourFactor amb (Z.of_nat k)
                         + random amb cq * 10) = 100).
  { apply Rmin_left. nra. }
  rewrite Hu. split; [reflexivity|].
  split; [|split].
  - unfold Rmin, Rmax; repeat (destruct (Rle_dec _ _)); lra.
  - unfold Rmin, Rmax; repeat (destruct (Rle_dec _ _)); lra.
  - lra.
Qed.

Lemma saturated_queue_pinned_witness :
  exists e p,
    nth_error
      (forecast
         (fst (generateMockForecast_on quiet
                 [Queue.mk "review" "Manual Review" 90 60 45 8 2.5]
                 8 0%nat))) 5 = Some e /\
    JS.get "review" (Hourly.predictions e) = Some p /\
    Prediction.utilization p = 100 /\
    80 <= Prediction.slaBreachProbability p < 95 /\
    75 <= Prediction.bottleneckProbability p < 85 /\
    Prediction.avgWaitTime p = 2 * 45.
Proof.
  apply (saturated_queue_pinned quiet
           [Queue.mk "review" "Manual Review" 90 60 45 8 2.5]
           8 0%nat 5 0
           (Queue.mk "review" "Manual Review" 90 60 45 8 2.5)).
  - intros k. simpl. lra.
  - simpl. repeat constructor; simpl; intuition.
  - simpl. lia.
  - reflexivity.
  - simpl. lra.
Defined.

(** ** The dashboard components *)

Lemma num_ge_spec a b : num_ge a b = true <-> b <= a.
Proof. unfold num_ge. destruct (Rle_dec b a); split; intros; easy. Qed.

Lemma num_ge_false a b : num_ge a b = false <-> a < b.
Proof.
  unfold num_ge. destruct (Rle_dec b a); split; intros; try easy; lra.
Qed.

Lemma num_lt_spec a b : num_lt a b = true <-> a < b.
Proof. unfold num_lt. destruct (Rlt_dec a b); split; intros; easy. Qed.

Lemma num_gt_spec a b : num_gt a b = true <-> b < a.
Proof. unfold num_gt. destruct (Rlt_dec b a); split; intros; easy. Qed.

(** X10. The status of a queue card is monotone: a prediction with at
    least as much utilization and at least as much breach risk never gets a
    milder status (healthy < warning < critical). *)
Theorem queue_card_status_monotone queue p p' :
  Prediction.utilization p <= Prediction.utilization p' ->
  Prediction.slaBreachProbability p <= Prediction.slaBreachProbability p' ->
  (rank (QueueCard.getStatus queue (Some p)) <=
   rank (QueueCard.getStatus queue (Some p')))%nat.
Proof.
  intros Hu Hb.
  unfold QueueCard.getStatus, QueueCard.utilization, QueueCard.breachRisk.
  by_comparisons.
Qed.

Lemma queue_card_status_monotone_witness :
  (rank (QueueCard.getStatus
           (Queue.mk "intake" "Case Intake" 45 50 15 5 1.0)
           (Some (Prediction.mk 45 75 30 20 20 17))) <=
   rank (QueueCard.getStatus
           (Queue.mk "intake" "Case Intake" 45 50 15 5 1.0)
           (Some (Prediction.mk 50 95 60 45 28 17))))%nat.
Proof.
  apply (queue_card_status_monotone
           (Queue.mk "intake" "Case Intake" 45 50 15 5 1.0)
           (Prediction.mk 45 75 30 20 20 17)
           (Prediction.mk 50 95 60 45 28 17)); simpl; lra.
Defined.

(** X11. On a queue card the SLA-risk figure gets exactly one of the three
    colour classes, and the card's status is never milder than that class.
    The two agree whenever the utilization is below 70; they can differ
    otherwise (a card is critical with a healthy-coloured risk figure when
    the utilization is at least 90 and the breach risk below 40). *)
Theorem queue_card_status_dominates_risk_class queue prediction :
  exists s,
    QueueCard.riskClasses prediction = [s] /\
    (rank s <= rank (QueueCard.getStatus queue prediction))%nat /\
    (QueueCard.utilization queue prediction < 70 ->
     s = QueueCard.getStatus queue prediction) /\
    (90 <= QueueCard.utilization queue prediction ->
     QueueCard.breachRisk prediction < 40 ->
     s = healthy /\ QueueCard.getStatus queue prediction = critical).
Proof.
  unfold QueueCard.riskClasses, QueueCard.getStatus.
  set (u := QueueCard.utilization queue prediction).
  set (b := QueueCard.breachRisk prediction).
  unfold num_ge, num_lt.
  destruct (Rle_dec 70 b), (Rle_dec 40 b), (Rlt_dec b 70), (Rlt_dec b 40),
           (Rle_dec 90 u), (Rle_dec 70 u);
    try lra; cbn; eexists; (split; [reflexivity|]); cbn;
    repeat split; try lia; try lra; try reflexivity; intros; lra.
Qed.

(** X12. The status of a status indicator is monotone in the value for any
    thresholds; with the default thresholds it is critical from 80,
    warning from 60 and healthy below; and when the warning threshold is
    not below the critical one the status is never warning. *)
Theorem status_indicator_status value value' thresholds :
  (value <= value' ->
   (rank (StatusIndicator.status value thresholds) <=
    rank (StatusIndicator.status value' thresholds))%nat) /\
  (StatusIndicator.status value None = critical <-> 80 <= value) /\
  (StatusIndicator.status value None = warning <-> 60 <= value < 80) /\
  (StatusIndicator.status value None = healthy <-> value < 60) /\
  (forall t,
     StatusIndicator.t_critical t <= StatusIndicator.t_warning t ->
     StatusIndicator.status value (Some t) <> warning).
Proof.
  unfold StatusIndicator.status.
  split; [|split; [|split; [|split]]].
  - intros Hle.
    destruct thresholds as [t|]; cbn [StatusIndicator.defaultThresholds
      StatusIndicator.t_warning StatusIndicator.t_critical]; by_comparisons.
  - cbn [StatusIndicator.defaultThresholds StatusIndicator.t_warning
         StatusIndicator.t_critical].
    unfold num_ge. destruct (Rle_dec 80 value), (Rle_dec 60 value);
      split; intros; try easy; lra.
  - cbn [StatusIndicator.defaultThresholds StatusIndicator.t_warning
         StatusIndicator.t_critical].
    unfold num_ge. destruct (Rle_dec 80 value), (Rle_dec 60 value);
      split; intros; try easy; lra.
  - cbn [StatusIndicator.defaultThresholds StatusIndicator.t_warning
         StatusIndicator.t_critical].
    unfold num_ge. destruct (Rle_dec 80 value), (Rle_dec 60 value);
      split; intros; try easy; lra.
  - intros t Ht. unfold num_ge.
    destruct (Rle_dec (StatusIndicator.t_critical t) value),
             (Rle_dec (StatusIndicator.t_warning t) value);
      try discriminate. lra.
Qed.

Lemma circumference_pos size : 0 < RiskGauge.circumference size.
Proof.
  unfold RiskGauge.circumference, JS.Math_PI. pose proof PI_RGT_0.
  destruct size; simpl; nra.
Qed.

(** X13. The dash offset of the risk gauge's value arc decreases strictly
    as the value grows; it is the full circumference at 0 and a quarter of
    it at 100, so that for a value in [[0, 100]] the uncovered part
    [offset - circumference / 4] is the share [1 - value / 100] of the
    three-quarter dash length.  The colour and the gradient of the gauge
    always belong to the same tier, with thresholds 70 and 40. *)
Theorem risk_gauge_arc value value' size :
  (value < value' ->
   RiskGauge.strokeDashoffset value' size
   < RiskGauge.strokeDashoffset value size) /\
  RiskGauge.strokeDashoffset 0 size = RiskGauge.circumference size /\
  RiskGauge.strokeDashoffset 100 size = RiskGauge.circumference size / 4 /\
  RiskGauge.strokeDashoffset value size - RiskGauge.circumference size / 4 =
    (1 - value / 100) * RiskGauge.strokeDasharray size /\
  (RiskGauge.getColor value = "text-status-critical"%string <->
   RiskGauge.getGradient value = "from-status-critical to-red-400"%string) /\
  (RiskGauge.getColor value = "text-status-warning"%string <->
   RiskGauge.getGradient value = "from-status-warning to-amber-400"%string) /\
  (RiskGauge.getColor value = "text-status-healthy"%string <->
   RiskGauge.getGradient value
   = "from-status-healthy to-emerald-400"%string).
Proof.
  pose proof (circumference_pos size) as Hc.
  unfold RiskGauge.strokeDashoffset, RiskGauge.strokeDasharray.
  split; [intros; nra|]. split; [lra|]. split; [lra|]. split; [lra|].
  unfold RiskGauge.getColor, RiskGauge.getGradient, num_ge.
  destruct (Rle_dec 70 value), (Rle_dec 40 value);
    repeat split; intros; try reflexivity; discriminate.
Qed.

(** X14. The colour of a risk gauge fed with a breach risk and the colour
    class of the SLA-risk figure on a queue card use the same tiers: each
    is critical from 70, warning from 40 and healthy below. *)
Theorem gauge_colour_matches_card_class prediction :
  let b := QueueCard.breachRisk prediction in
  (QueueCard.riskClasses prediction = [critical] <->
   RiskGauge.getColor b = "text-status-critical"%string) /\
  (QueueCard.riskClasses prediction = [warning] <->
   RiskGauge.getColor b = "text-status-warning"%string) /\
  (QueueCard.riskClasses prediction = [healthy] <->
   RiskGauge.getColor b = "text-status-healthy"%string) /\
  (QueueCard.riskClasses prediction = [critical] <-> 70 <= b) /\
  (QueueCard.riskClasses prediction = [healthy] <-> b < 40).
Proof.
  cbv zeta. unfold QueueCard.riskClasses, RiskGauge.getColor.
  set (b := QueueCard.breachRisk prediction).
  unfold num_ge, num_lt.
  destruct (Rle_dec 70 b), (Rle_dec 40 b), (Rlt_dec b 70), (Rlt_dec b 40);
    try lra; cbn; repeat split; intros; try reflexivity; try discriminate;
    lra.
Qed.

(** ** The Index page *)

Lemma handleRunSimulation_fst amb loaded hours c :
  fst (Index.handleRunSimulation amb loaded hours c) =
  Some (fst (generateMockForecast_on amb mockQueues hours c)).
Proof.
  unfold Index.handleRunSimulation, generateMockForecast, bind, ret.
  change (workQueues (mockOperationalState loaded)) with mockQueues.
  destruct (generateMockForecast_on amb mockQueues hours c). reflexivity.
Qed.

Lemma latestPredictions_run amb hours c :
  (1 <= hours)%Z ->
  Index.latestPredictions
    (Some (fst (generateMockForecast_on amb mockQueues hours c))) =
  Some (Hourly.predictions (entryAt amb mockQueues c (Z.to_nat hours - 1))).
Proof.
  intros Hh. unfold Index.latestPredictions, at_index.
  rewrite forecast_length.
  destruct (Z.ltb_spec (Z.of_nat (Z.to_nat hours) - 1) 0) as [|_]; [lia|].
  replace (Z.to_nat (Z.of_nat (Z.to_nat hours) - 1))
    with (Z.to_nat hours - 1)%nat by lia.
  rewrite forecast_nth by lia. reflexivity.
Qed.

(** X15. After a run with a horizon of at least one hour, every queue card
    of the page receives a prediction: the one computed for its queue in
    the last hour of the forecast (hour index [hours]).  With draws in
    [[0, 1)] the card then shows a utilization and a breach risk within
    [[0, 100]]. *)
Theorem cards_show_last_hour amb loaded hours c j q :
  random_ok amb ->
  (1 <= hours)%Z ->
  nth_error mockQueues j = Some q ->
  let sim := fst (Index.handleRunSimulation amb loaded hours c) in
  exists e p,
    at_index (forecast (fst (generateMockForecast amb loaded hours c)))
             (hours - 1) = Some e /\
    Hourly.hour e = hours /\
    JS.get (Queue.id q) (Hourly.predictions e) = Some p /\
    Index.cardPrediction sim q = Some p /\
    0 <= QueueCard.utilization q (Index.cardPrediction sim q) <= 100 /\
    0 <= QueueCard.breachRisk (Index.cardPrediction sim q) <= 100.
Proof.
  intros Hr Hh Hj. cbv zeta. rewrite handleRunSimulation_fst.
  unfold generateMockForecast.
  change (workQueues (mockOperationalState loaded)) with mockQueues.
  set (k := (Z.to_nat hours - 1)%nat).
  exists (entryAt amb mockQueues c k).
  exists (predictionAt amb (hourFactor amb (Z.of_nat k)) q
            (c + 4 * List.length mockQueues * k + 4 * j)).
  pose proof (entry_prediction amb mockQueues c k j q mockQueues_ids Hj)
    as Hget.
  assert (Hcard : Index.cardPrediction
                    (Some (fst (generateMockForecast_on amb mockQueues
                                  hours c))) q =
                  Some (predictionAt amb (hourFactor amb (Z.of_nat k)) q
                          (c + 4 * List.length mockQueues * k + 4 * j))).
  { unfold Index.cardPrediction. rewrite latestPredictions_run by exact Hh.
    exact Hget. }
  split.
  { unfold at_index. destruct (Z.ltb_spec (hours - 1) 0) as [|_]; [lia|].
    replace (Z.to_nat (hours - 1)) with k by lia.
    apply forecast_nth. lia. }
  split.
  { destruct (entryAt_fields amb mockQueues c k) as [-> _]. lia. }
  split; [exact Hget|]. split; [exact Hcard|].
  rewrite Hcard. cbn [QueueCard.utilization QueueCard.breachRisk].
  assert (Hq : queue_ok q).
  { pose proof mockQueues_ok as Hall. rewrite Forall_forall in Hall.
    apply Hall. eapply nth_error_In. exact Hj. }
  pose proof (predictionAt_in_range amb (hourFactor amb (Z.of_nat k)) q
                (c + 4 * List.length mockQueues * k + 4 * j) Hr Hq
                (hourFactor_nonneg amb _)) as [Hu [Hb _]].
  split; assumption.
Qed.

Lemma cards_show_last_hour_witness :
  let q := Queue.mk "review" "Manual Review" 78 60 45 8 2.5 in
  let sim := fst (Index.handleRunSimulation quiet 0 8 0%nat) in
  exists e p,
    at_index (forecast (fst (generateMockForecast quiet 0 8 0%nat)))
             (8 - 1) = Some e /\
    Hourly.hour e = 8%Z /\
    JS.get (Queue.id q) (Hourly.predictions e) = Some p /\
    Index.cardPrediction sim q = Some p /\
    0 <= QueueCard.utilization q (Index.cardPrediction sim q) <= 100 /\
    0 <= QueueCard.breachRisk (Index.cardPrediction sim q) <= 100.
Proof.
  apply (cards_show_last_hour quiet 0 8 0%nat 1
           (Queue.mk "review" "Manual Review" 78 60 45 8 2.5)).
  - intros k. simpl. lra.
  - lia.
  - reflexivity.
Defined.

(** X16. Before any run, and after a run whose horizon is zero or
    negative, no card receives a prediction: the card of a queue with
    positive capacity falls back to the queue's own figures, a utilization
    of [workInProgress / capacity * 100], not capped at 100, and a breach
    risk of 0, so that its status is decided by the utilization alone. *)
Theorem cards_fall_back_without_forecast amb loaded hours c queue :
  (hours <= 0)%Z ->
  0 < Queue.capacity queue ->
  let sim := fst (Index.handleRunSimulation amb loaded hours c) in
  Index.cardPrediction sim queue = None /\
  Index.cardPrediction None queue = None /\
  QueueCard.utilization queue (Index.cardPrediction sim queue) =
    Queue.workInProgress queue / Queue.capacity queue * 100 /\
  QueueCard.breachRisk (Index.cardPrediction sim queue) = 0 /\
  (QueueCard.getStatus queue (Index.cardPrediction sim queue) = critical <->
   90 <= Queue.workInProgress queue / Queue.capacity queue * 100) /\
  (QueueCard.getStatus queue (Index.cardPrediction sim queue) = healthy <->
   Queue.workInProgress queue / Queue.capacity queue * 100 < 70).
Proof.
  intros Hh _. cbv zeta. rewrite handleRunSimulation_fst.
  assert (Hnone : Index.cardPrediction
                    (Some (fst (generateMockForecast_on amb mockQueues
                                  hours c))) queue = None).
  { unfold Index.cardPrediction, Index.latestPredictions, at_index.
    rewrite forecast_length.
    replace (Z.to_nat hours) with 0%nat by lia. reflexivity. }
  rewrite Hnone. split; [reflexivity|]. split; [reflexivity|].
  split; [reflexivity|]. split; [reflexivity|].
  unfold QueueCard.getStatus.
  cbn [QueueCard.utilization QueueCard.breachRisk].
  set (u := Queue.workInProgress queue / Queue.capacity queue * 100).
  unfold num_ge.
  destruct (Rle_dec 70 0), (Rle_dec 40 0), (Rle_dec 90 u), (Rle_dec 70 u);
    try lra; cbn; repeat split; intros; try reflexivity; try discriminate;
    lra.
Qed.

Lemma cards_fall_back_without_forecast_witness :
  let queue := Queue.mk "review" "Manual Review" 78 60 45 8 2.5 in
  let sim := fst (Index.handleRunSimulation quiet 0 0 0%nat) in
  Index.cardPrediction sim queue = None /\
  Index.cardPrediction None queue = None /\
  QueueCard.utilization queue (Index.cardPrediction sim queue) =
    Queue.workInProgress queue / Queue.capacity queue * 100 /\
  QueueCard.breachRisk (Index.cardPrediction sim queue) = 0 /\
  (QueueCard.getStatus queue (Index.cardPrediction sim queue) = critical <->
   90 <= Queue.workInProgress queue / Queue.capacity queue * 100) /\
  (QueueCard.getStatus queue (Index.cardPrediction sim queue) = healthy <->
   Queue.workInProgress queue / Queue.capacity queue * 100 < 70).
Proof.
  apply (cards_fall_back_without_forecast quiet 0 0 0%nat
           (Queue.mk "review" "Manual Review" 78 60 45 8 2.5)).
  - lia.
  - simpl. lra.
Defined.

(** X17. Applying a suggestion changes nothing in what is recommended:
    the re-run returns the same suggestion list, so the applied suggestion
    is still there, the applied-changes counter is still 0, and the queues
    forecast are the same four.  The horizon of the re-run is the one of
    the simulation on display, except that a horizon of 0 is replaced by 8.
    Only the first and the third suggestion of a response offer the Apply
    button. *)
Theorem apply_suggestion_keeps_recommendations
    amb amb' loaded hours c c' suggestion :
  let sim := fst (Index.handleRunSimulation amb loaded hours c) in
  let sim' :=
    fst (Index.handleApplySuggestion amb' loaded sim suggestion c') in
  exists r r',
    sim = Some r /\ sim' = Some r' /\
    suggestions r' = suggestions r /\
    Metadata.resourceChangesApplied (metadata r') = 0%Z /\
    Metadata.forecastHours (metadata r') =
      (if (hours =? 0)%Z then 8%Z else hours) /\
    Z.of_nat (List.length (forecast r')) =
      Z.max 0 (if (hours =? 0)%Z then 8%Z else hours) /\
    Forall (fun e => map fst (Hourly.predictions e) = map Queue.id mockQueues)
           (forecast r') /\
    map (fun s => SuggestionCard.showsApply s true) (suggestions r) =
      [true; false; true].
Proof.
  cbv zeta. unfold Index.handleApplySuggestion.
  rewrite !handleRunSimulation_fst.
  eexists. eexists. split; [reflexivity|]. split; [reflexivity|].
  assert (Hre : Index.rerunHours
                  (Some (fst (generateMockForecast_on amb mockQueues
                                hours c))) =
                (if (hours =? 0)%Z then 8%Z else hours)).
  { unfold Index.rerunHours. rewrite generate_metadata. reflexivity. }
  rewrite Hre. rewrite !generate_suggestions, generate_metadata.
  split; [reflexivity|]. split; [reflexivity|]. split; [reflexivity|].
  split; [rewrite forecast_length; lia|].
  split; [|reflexivity].
  apply Forall_forall. intros e He. apply forecast_In in He.
  destruct He as [k [_ ->]].
  destruct (entryAt_fields amb' mockQueues c' k) as [_ [_ [-> _]]].
  rewrite forEachQueue_keys_distinct; [reflexivity|].
  exact mockQueues_ids.
Qed.

(** X18. The two gauges and the SLA metric card of the page do not react
    to the forecast: after every run the average-risk gauge is in the
    healthy tier, the peak-risk gauge in the warning tier and the SLA card
    healthy, whatever the horizon, the clock and the draws; before any run
    the SLA card is healthy as well. *)
Theorem gauges_do_not_react amb loaded hours c :
  exists r,
    fst (Index.handleRunSimulation amb loaded hours c) = Some r /\
    RiskGauge.getColor (Metadata.averageBreachRisk (metadata r)) =
      "text-status-healthy"%string /\
    RiskGauge.getColor (Metadata.peakRiskValue (metadata r)) =
      "text-status-warning"%string /\
    Index.slaCardStatus (Some r) = healthy /\
    Index.slaCardStatus None = healthy.
Proof.
  rewrite handleRunSimulation_fst. eexists. split; [reflexivity|].
  unfold Index.slaCardStatus, Index.avgRisk. rewrite generate_metadata.
  cbn [Metadata.averageBreachRisk Metadata.peakRiskValue].
  unfold RiskGauge.getColor, num_ge, num_gt.
  repeat split;
    repeat (destruct (Rle_dec _ _)); repeat (destruct (Rlt_dec _ _));
    try reflexivity; lra.
Qed.

(** ** ForecastChart *)

Lemma list_ascii_of_string_append (s t : string) :
  list_ascii_of_string (s ++ t) =
  (list_ascii_of_string s ++ list_ascii_of_string t)%list.
Proof.
  induction s as [|a s IH]; simpl; [reflexivity|]. rewrite IH. reflexivity.
Qed.

Lemma list_ascii_of_string_inj (s t : string) :
  list_ascii_of_string s = list_ascii_of_string t -> s = t.
Proof.
  intros H. rewrite <- (string_of_list_ascii_of_string s),
              <- (string_of_list_ascii_of_string t), H. reflexivity.
Qed.

Lemma append_inv_tail (s s' t : string) :
  (s ++ t = s' ++ t)%string -> s = s'.
Proof.
  intros H. apply (f_equal list_ascii_of_string) in H.
  rewrite !list_ascii_of_string_append in H. apply app_inv_tail in H.
  apply list_ascii_of_string_inj. exact H.
Qed.

(** Two strings that end in different characters differ. *)
Lemma append_last_differs (s s' : string) (l l' : list Ascii.ascii) a a' :
  a <> a' ->
  list_ascii_of_string s = (l ++ [a])%list ->
  list_ascii_of_string s' = (l' ++ [a'])%list ->
  s <> s'.
Proof.
  intros Hne Hs Hs' ->. rewrite Hs in Hs'.
  apply app_inj_tail in Hs'. destruct Hs' as [_ Heq]. contradiction.
Qed.

Lemma util_key_not_risk_key (id id' : string) :
  (id ++ "_util")%string <> (id' ++ "_risk")%string.
Proof.
  apply (append_last_differs _ _
           (list_ascii_of_string id ++ list_ascii_of_string "_uti")
           (list_ascii_of_string id' ++ list_ascii_of_string "_ris")
           "l"%char "k"%char).
  - discriminate.
  - rewrite list_ascii_of_string_append, <- app_assoc. reflexivity.
  - rewrite list_ascii_of_string_append, <- app_assoc. reflexivity.
Qed.

Lemma util_key_not_fixed (id : string) :
  (id ++ "_util")%string <> "hour"%string /\
  (id ++ "_util")%string <> "time"%string /\
  (id ++ "_util")%string <> "totalRisk"%string.
Proof.
  assert (H : list_ascii_of_string (id ++ "_util") =
              ((list_ascii_of_string id ++ list_ascii_of_string "_uti")
               ++ ["l"%char])%list).
  { rewrite list_ascii_of_string_append, <- app_assoc. reflexivity. }
  repeat split.
  - eapply (append_last_differs _ _ _ (list_ascii_of_string "hou")
             "l"%char "r"%char); [discriminate | exact H | reflexivity].
  - eapply (append_last_differs _ _ _ (list_ascii_of_string "tim")
             "l"%char "e"%char); [discriminate | exact H | reflexivity].
  - eapply (append_last_differs _ _ _ (list_ascii_of_string "totalRis")
             "l"%char "k"%char); [discriminate | exact H | reflexivity].
Qed.

Lemma risk_key_not_fixed (id : string) :
  (id ++ "_risk")%string <> "hour"%string /\
  (id ++ "_risk")%string <> "time"%string /\
  (id ++ "_risk")%string <> "totalRisk"%string.
Proof.
  assert (H : list_ascii_of_string (id ++ "_risk") =
              ((list_ascii_of_string id ++ list_ascii_of_string "_ris")
               ++ ["k"%char])%list).
  { rewrite list_ascii_of_string_append, <- app_assoc. reflexivity. }
  repeat split.
  - eapply (append_last_differs _ _ _ (list_ascii_of_string "hou")
             "k"%char "r"%char); [discriminate | exact H | reflexivity].
  - eapply (append_last_differs _ _ _ (list_ascii_of_string "tim")
             "k"%char "e"%char); [discriminate | exact H | reflexivity].
  - intros Heq. apply (f_equal list_ascii_of_string) in Heq.
    rewrite list_ascii_of_string_append in Heq.
    change (list_ascii_of_string "_risk")
      with ((list_ascii_of_string "_" ++ ["r"%char])
            ++ list_ascii_of_string "isk")%list in Heq.
    change (list_ascii_of_string "totalRisk")
      with ((list_ascii_of_string "total" ++ ["R"%char])
            ++ list_ascii_of_string "isk")%list in Heq.
    rewrite app_assoc in Heq. apply app_inv_tail in Heq.
    rewrite app_assoc in Heq. apply app_inj_tail in Heq.
    destruct Heq as [_ Heq]. discriminate.
Qed.

Lemma get_set_same {V} (k : string) (v : V) (o : JS.Obj V) :
  JS.get k (JS.set k v o) = Some v.
Proof. rewrite get_set, String.eqb_refl. reflexivity. Qed.

Lemma get_set_other {V} (id k : string) (v : V) (o : JS.Obj V) :
  id <> k -> JS.get id (JS.set k v o) = JS.get id o.
Proof.
  intros H. rewrite get_set.
  destruct (String.eqb_spec id k); [contradiction | reflexivity].
Qed.

Lemma fold_addQueue_untouched key : forall entries base,
  (forall id, In id (map fst entries) ->
     key <> (id ++ "_util")%string /\ key <> (id ++ "_risk")%string) ->
  JS.get key (fold_left ForecastChart.addQueue entries base) =
  JS.get key base.
Proof.
  induction entries as [|[id p] entries IH]; intros base Hk.
  - reflexivity.
  - cbn [fold_left]. rewrite IH.
    + destruct (Hk id (or_introl eq_refl)) as [Hu Hr].
      unfold ForecastChart.addQueue.
      rewrite get_set_other by exact Hr.
      rewrite get_set_other by exact Hu. reflexivity.
    + intros id' Hin. apply Hk. right. exact Hin.
Qed.

Lemma fold_addQueue_written : forall entries base id p,
  NoDup (map fst entries) ->
  In (id, p) entries ->
  let row := fold_left ForecastChart.addQueue entries base in
  JS.get (id ++ "_util") row = Some (Num (Prediction.utilization p)) /\
  JS.get (id ++ "_risk") row =
    Some (Num (Prediction.slaBreachProbability p)).
Proof.
  induction entries as [|[id0 p0] entries IH]; intros base id p Hnd Hin.
  - destruct Hin.
  - cbn [map fst] in Hnd. inversion Hnd as [|? ? Hfresh Hnd']; subst.
    cbv zeta. cbn [fold_left]. destruct Hin as [Heq|Hin].
    + injection Heq as -> ->.
      assert (Hother : forall key,
                (key = (id ++ "_util")%string \/ key = (id ++ "_risk")%string) ->
                forall id', In id' (map fst entries) ->
                  key <> (id' ++ "_util")%string /\
                  key <> (id' ++ "_risk")%string).
      { intros key Hkey id' Hin'.
        assert (Hne : id <> id') by (intros ->; contradiction).
        destruct Hkey as [-> | ->]; split.
        - intros Heq. apply append_inv_tail in Heq. contradiction.
        - apply util_key_not_risk_key.
        - intros Heq. symmetry in Heq. revert Heq. apply util_key_not_risk_key.
        - intros Heq. apply append_inv_tail in Heq. contradiction. }
      rewrite !fold_addQueue_untouched by (apply Hother; auto).
      unfold ForecastChart.addQueue. split.
      * rewrite get_set_other by apply util_key_not_risk_key.
        apply get_set_same.
      * apply get_set_same.
    + apply IH; assumption.
Qed.

(** X19. A chart row carries, for every queue of the hour's predictions
    object, the queue's utilization under the key [<id>_util] and its
    breach probability under [<id>_risk]; no two queues overwrite each
    other, and whatever the queue ids are, the keys [hour], [time] and
    [totalRisk] of the row keep the values they were created with. *)
Theorem chart_row_lookup showNumber formatHHmm f id p :
  NoDup (map fst (Hourly.predictions f)) ->
  In (id, p) (Hourly.predictions f) ->
  let row := ForecastChart.row showNumber formatHHmm f in
  JS.get (id ++ "_util") row = Some (Num (Prediction.utilization p)) /\
  JS.get (id ++ "_risk") row =
    Some (Num (Prediction.slaBreachProbability p)) /\
  JS.get "totalRisk" row = Some (Num (Hourly.totalBreachRisk f)) /\
  JS.get "hour" row = Some (Str ("+" ++ showNumber (Hourly.hour f) ++ "h")) /\
  JS.get "time" row = Some (Str (formatHHmm (Hourly.timestamp f))).
Proof.
  intros Hnd Hin. cbv zeta. unfold ForecastChart.row.
  destruct (fold_addQueue_written (Hourly.predictions f)
              [ ("hour"%string,
                 Str ("+" ++ showNumber (Hourly.hour f) ++ "h"));
                ("time"%string, Str (formatHHmm (Hourly.timestamp f)));
                ("totalRisk"%string, Num (Hourly.totalBreachRisk f)) ]
              id p Hnd Hin) as [Hu Hr].
  split; [exact Hu|]. split; [exact Hr|].
  repeat split.
  - rewrite fold_addQueue_untouched; [reflexivity|].
    intros id' _. split; apply not_eq_sym.
    + apply util_key_not_fixed.
    + apply risk_key_not_fixed.
  - rewrite fold_addQueue_untouched; [reflexivity|].
    intros id' _. split; apply not_eq_sym.
    + apply util_key_not_fixed.
    + apply risk_key_not_fixed.
  - rewrite fold_addQueue_untouched; [reflexivity|].
    intros id' _. split; apply not_eq_sym.
    + apply util_key_not_fixed.
    + apply risk_key_not_fixed.
Qed.

Lemma chart_row_lookup_witness :
  let p := Prediction.mk 45 90 60 60 27 17 in
  let f := Hourly.mk 1 3600000 [("intake"%string, p)] 15 in
  let row := ForecastChart.row (fun _ => "1"%string)
                               (fun _ => "01:00"%string) f in
  JS.get ("intake" ++ "_util") row = Some (Num (Prediction.utilization p)) /\
  JS.get ("intake" ++ "_risk") row =
    Some (Num (Prediction.slaBreachProbability p)) /\
  JS.get "totalRisk" row = Some (Num (Hourly.totalBreachRisk f)) /\
  JS.get "hour" row = Some (Str ("+" ++ "1" ++ "h")) /\
  JS.get "time" row = Some (Str "01:00").
Proof.
  apply (chart_row_lookup (fun _ => "1"%string) (fun _ => "01:00"%string)
           (Hourly.mk 1 3600000
              [("intake"%string, Prediction.mk 45 90 60 60 27 17)] 15)
           "intake" (Prediction.mk 45 90 60 60 27 17)).
  - simpl. repeat constructor. intros [].
  - simpl. left. reflexivity.
Defined.

Lemma fold_addQueue_values_Forall (P : ChartValue -> Prop) :
  forall entries base,
    (forall id p, In (id, p) entries ->
       P (Num (Prediction.utilization p)) /\
       P (Num (Prediction.slaBreachProbability p))) ->
    Forall P (JS.values base) ->
    Forall P (JS.values (fold_left ForecastChart.addQueue entries base)).
Proof.
  induction entries as [|[id p] entries IH]; intros base HP Hbase.
  - exact Hbase.
  - cbn [fold_left]. apply IH.
    + intros id' p' Hin. apply (HP id' p'). right. exact Hin.
    + destruct (HP id p (or_introl eq_refl)) as [Hu Hr].
      unfold ForecastChart.addQueue.
      apply set_values_Forall; [exact Hr|].
      apply set_values_Forall; [exact Hu | exact Hbase].
Qed.

(** X20. For the forecast returned by [generateMockForecast] the chart
    gets one row per forecast hour; its series are the four queues in
    their order of declaration when the horizon is positive and there is
    no series otherwise; and with draws in [[0, 1)] every number plotted
    (each queue's utilization, each breach probability and the total risk)
    lies within the [[0, 100]] domain of the chart's axis. *)
Theorem chart_of_generated_forecast
    amb loaded hours c showNumber formatHHmm :
  random_ok amb ->
  let fc := forecast (fst (generateMockForecast amb loaded hours c)) in
  List.length (ForecastChart.data showNumber formatHHmm fc) = Z.to_nat hours /\
  ForecastChart.queueIds fc =
    (if (hours <=? 0)%Z then []
     else ["intake"; "review"; "approval"; "completion"]%string) /\
  Forall (fun row => Forall on_axis (JS.values row))
         (ForecastChart.data showNumber formatHHmm fc).
Proof.
  intros Hr. cbv zeta. unfold generateMockForecast.
  change (workQueues (mockOperationalState loaded)) with mockQueues.
  split; [|split].
  - unfold ForecastChart.data. rewrite length_map. apply forecast_length.
  - unfold ForecastChart.queueIds, at_index. cbn [Z.ltb Z.compare Z.to_nat].
    destruct (Z.leb_spec hours 0) as [Hle|Hgt].
    + rewrite generate_forecast.
      replace (Z.to_nat hours) with 0%nat by lia. reflexivity.
    + rewrite forecast_nth by lia.
      destruct (entryAt_fields amb mockQueues c 0) as [_ [_ [-> _]]].
      rewrite forEachQueue_keys_distinct; [reflexivity|].
      exact mockQueues_ids.
  - unfold ForecastChart.data. apply Forall_forall. intros row Hrow.
    apply in_map_iff in Hrow. destruct Hrow as [e [<- He]].
    apply forecast_In in He. destruct He as [k [_ ->]].
    unfold ForecastChart.row. apply fold_addQueue_values_Forall.
    + intros id p Hin.
      assert (Hp : in_range p).
      { destruct (entryAt_fields amb mockQueues c k) as [_ [_ [Hpreds _]]].
        rewrite Hpreds in Hin. apply in_values in Hin. revert p Hin.
        apply Forall_forall.
        apply forEachQueue_values_Forall; [|constructor].
        intros q c' Hq. apply predictionAt_in_range.
        - exact Hr.
        - pose proof mockQueues_ok as Hall. rewrite Forall_forall in Hall.
          apply Hall. exact Hq.
        - apply hourFactor_nonneg. }
      destruct Hp as [Hu [Hb _]]. split; assumption.
    + unfold JS.values. cbn [map snd].
      constructor; [exact I|]. constructor; [exact I|].
      constructor; [apply mock_total_bounds | constructor].
Qed.

Lemma chart_of_generated_forecast_witness :
  let fc := forecast (fst (generateMockForecast quiet 0 8 0%nat)) in
  List.length
    (ForecastChart.data (fun _ => "1"%string) (fun _ => "01:00"%string) fc)
    = Z.to_nat 8 /\
  ForecastChart.queueIds fc =
    (if (8 <=? 0)%Z then []
     else ["intake"; "review"; "approval"; "completion"]%string) /\
  Forall (fun row => Forall on_axis (JS.values row))
         (ForecastChart.data (fun _ => "1"%string)
                             (fun _ => "01:00"%string) fc).
Proof.
  apply (chart_of_generated_forecast quiet 0 8 0%nat
           (fun _ => "1"%string) (fun _ => "01:00"%string)).
  intros k. simpl. lra.
Defined.
